(** * Retrieval-augmented generation pipeline: query builder and orchestrator

    A shallow embedding of
    - [graphql/nearvectorbuilder.go] (the nearVector argument builder of the
      vendored Weaviate client), and
    - [main.go] and its Qdrant sibling (the [processQuery] orchestrator and
      [convertToFloat32]),
    followed by the properties of the specification checked against them.

    Conventions.  Go slices are lists; the code only ever tests [len] of a
    slice, so a nil slice and an empty one are both the empty list.  A Go
    [map[string]T] is a [gmap string T]; the nil map is the empty map.
    [float32] and [float64] values are IEEE-754 values ([spec_float]) of the
    binary32 and binary64 formats.  A Go call that either returns or panics
    yields an [outcome]; a call returning [(value, err)] yields a [result]. *)

From Stdlib Require Import ZArith Ascii String List Bool.
From Stdlib Require Import Floats.SpecFloat.
From stdpp Require Import gmap strings pretty list fin_maps.

Set Warnings "-register-all".
Set Default Proof Using "Type".

Open Scope string_scope.
Open Scope list_scope.

(** ** Floating-point values *)

Definition float32 : Type := spec_float.
Definition float64 : Type := spec_float.

(** [math.IsNaN(f) || math.IsInf(f, 0)] *)
Definition is_nan_or_inf (f : spec_float) : bool :=
  match f with
  | S754_nan | S754_infinity _ => true
  | S754_zero _ | S754_finite _ _ _ => false
  end.

(** The Go conversion [float32(v)] of a [float64]: round to the nearest
    binary32 value, ties to even; overflow gives an infinity, NaN and the
    infinities and zeros keep their class and sign. *)
Definition to_float32 (v : float64) : float32 :=
  match v with
  | S754_finite s m e => binary_round 24 128 s m e
  | _ => v
  end.

(** ** Outcomes of Go calls *)

(** The value handed to [panic]: [build] panics once with a string
    ([fmt.Sprintf]) and once with an error value ([fmt.Errorf]). *)
Inductive panic_value :=
  | PanicString (s : string)
  | PanicError (msg : string).

Inductive outcome (A : Type) :=
  | Returns (a : A)
  | Panics (v : panic_value).
Arguments Returns {A} a.
Arguments Panics {A} v.

Definition obind {A B} (o : outcome A) (k : A -> outcome B) : outcome B :=
  match o with
  | Returns a => k a
  | Panics v => Panics v
  end.

(** A Go [error] is carried by its message. *)
Definition error : Type := string.

(** The pair [(value, err)] of a fallible call: [inl] when [err == nil]. *)
Definition result (A : Type) : Type := A + error.

(** ** [encoding/json] on the values the builder marshals *)

(** The message of [json.UnsupportedValueError] for a float the encoder
    refuses. *)
Definition unsupported_value (f : spec_float) : error :=
  "json: unsupported value: " +:+
  match f with
  | S754_nan => "NaN"
  | S754_infinity false => "+Inf"
  | S754_infinity true => "-Inf"
  | _ => ""
  end.

Section Json.
(** The text of one finite float in JSON ([strconv] shortest form). *)
Variable json_float32 : float32 -> string.

(** Encode the elements left to right; the first NaN or infinity aborts
    the whole encoding with its error. *)
Fixpoint json_floats (v : list float32) : result (list string) :=
  match v with
  | [] => inl []
  | f :: rest =>
      if is_nan_or_inf f then inr (unsupported_value f)
      else match json_floats rest with
           | inl out => inl (json_float32 f :: out)
           | inr err => inr err
           end
  end.

(** [json.Marshal(v)] for [v : []float32] *)
Definition json_Marshal_vector (v : list float32) : result string :=
  match json_floats v with
  | inl out => inl ("[" +:+ String.concat "," out +:+ "]")
  | inr err => inr err
  end.

Fixpoint json_vectors (vs : list (list float32)) : result (list string) :=
  match vs with
  | [] => inl []
  | v :: rest =>
      match json_Marshal_vector v with
      | inr err => inr err
      | inl s =>
          match json_vectors rest with
          | inl out => inl (s :: out)
          | inr err => inr err
          end
      end
  end.

(** [json.Marshal(v)] for [v : [][]float32] *)
Definition json_Marshal_vectors (vs : list (list float32)) : result string :=
  match json_vectors vs with
  | inl out => inl ("[" +:+ String.concat "," out +:+ "]")
  | inr err => inr err
  end.
End Json.

(** ** [convertToFloat32] (main.go, and the same function in the Qdrant
    variant) *)

(** [for i, v := range f64 { f32[i] = float32(v) }], from index [i] on.
    The store is in range throughout, as [f32] is as long as [f64]. *)
Fixpoint convert_loop (f64 : list float64) (i : nat) (f32 : list float32)
  : list float32 :=
  match f64 with
  | [] => f32
  | v :: rest => convert_loop rest (S i) (<[i := to_float32 v]> f32)
  end.

Definition convertToFloat32 (f64 : list float64) : list float32 :=
  let f32 := replicate (length f64) (S754_zero false) in
  convert_loop f64 0 f32.

(** ** The nearVector argument builder (graphql/nearvectorbuilder.go) *)

Record NearVectorArgumentBuilder (MultiTargetArgumentBuilder : Type) := {
  vector : list float32;
  vectorsPerTarget : gmap string (list (list float32));
  withCertainty : bool;
  certainty : float32;
  withDistance : bool;
  distance : float32;
  targetVectors : list string;
  targets : option MultiTargetArgumentBuilder;
}.
Arguments vector {_} _.
Arguments vectorsPerTarget {_} _.
Arguments withCertainty {_} _.
Arguments certainty {_} _.
Arguments withDistance {_} _.
Arguments distance {_} _.
Arguments targetVectors {_} _.
Arguments targets {_} _.

Section Builder.
(** [MultiTargetArgumentBuilder] and its [build] method are declared in
    another file of the client; the builder only stores a pointer to one
    and splices the text of its [build()] into the clause. *)
Context {MultiTargetArgumentBuilder : Type}.
Variable targets_build : MultiTargetArgumentBuilder -> string.

(** Formatting done by the Go library: [%v] of a [float32], the JSON
    text of a finite [float32], and [json.Marshal] of a [[]string]
    (which cannot fail). *)
Variable fmt_float32 : float32 -> string.
Variable json_float32 : float32 -> string.
Variable json_Marshal_strings : list string -> string.

(** The order in which [range] walks a map; Go leaves it unspecified. *)
Variable map_range :
  gmap string (list (list float32)) -> list (string * list (list float32)).

Local Abbreviation Builder := (NearVectorArgumentBuilder MultiTargetArgumentBuilder).

(** The zero value [&NearVectorArgumentBuilder{}]. *)
Definition new_builder : Builder :=
  {| vector := []; vectorsPerTarget := ∅;
     withCertainty := false; certainty := S754_zero false;
     withDistance := false; distance := S754_zero false;
     targetVectors := []; targets := None |}.

Definition WithVector (v : list float32) (b : Builder) : Builder :=
  {| vector := v; vectorsPerTarget := vectorsPerTarget b;
     withCertainty := withCertainty b; certainty := certainty b;
     withDistance := withDistance b; distance := distance b;
     targetVectors := targetVectors b; targets := targets b |}.

Definition set_vectorsPerTarget (m : gmap string (list (list float32)))
    (b : Builder) : Builder :=
  {| vector := vector b; vectorsPerTarget := m;
     withCertainty := withCertainty b; certainty := certainty b;
     withDistance := withDistance b; distance := distance b;
     targetVectors := targetVectors b; targets := targets b |}.

Definition WithVectorPerTarget (vectorPerTarget : gmap string (list float32))
    (b : Builder) : Builder :=
  if (0 <? size vectorPerTarget)%nat
  then set_vectorsPerTarget ((fun v => [v]) <$> vectorPerTarget) b
  else b.

Definition WithVectorsPerTarget
    (vectorPerTarget : gmap string (list (list float32)))
    (b : Builder) : Builder :=
  if (0 <? size vectorPerTarget)%nat
  then set_vectorsPerTarget vectorPerTarget b
  else b.

Definition WithCertainty (c : float32) (b : Builder) : Builder :=
  {| vector := vector b; vectorsPerTarget := vectorsPerTarget b;
     withCertainty := true; certainty := c;
     withDistance := withDistance b; distance := distance b;
     targetVectors := targetVectors b; targets := targets b |}.

Definition WithDistance (d : float32) (b : Builder) : Builder :=
  {| vector := vector b; vectorsPerTarget := vectorsPerTarget b;
     withCertainty := withCertainty b; certainty := certainty b;
     withDistance := true; distance := d;
     targetVectors := targetVectors b; targets := targets b |}.

Definition WithTargetVectors (tv : list string) (b : Builder) : Builder :=
  if (0 <? length tv)%nat
  then {| vector := vector b; vectorsPerTarget := vectorsPerTarget b;
          withCertainty := withCertainty b; certainty := certainty b;
          withDistance := withDistance b; distance := distance b;
          targetVectors := tv; targets := targets b |}
  else b.

Definition WithTargets (t : option MultiTargetArgumentBuilder)
    (b : Builder) : Builder :=
  {| vector := vector b; vectorsPerTarget := vectorsPerTarget b;
     withCertainty := withCertainty b; certainty := certainty b;
     withDistance := withDistance b; distance := distance b;
     targetVectors := targetVectors b; targets := t |}.

(** [for range vectors { out = append(out, target) }] *)
Fixpoint append_per_vector (vectors : list (list float32)) (target : string)
    (out : list string) : list string :=
  match vectors with
  | [] => out
  | _ :: rest => append_per_vector rest target (out ++ [target])
  end.

(** The body of the loop over [targets], with [out] threaded through. *)
Fixpoint prepare_loop (b : Builder) (targets : list string)
    (out : list string) : list string :=
  match targets with
  | [] => out
  | target :: rest =>
      match vectorsPerTarget b !! target with
      | Some vectors =>
          prepare_loop b rest (append_per_vector vectors target out)
      | None => prepare_loop b rest (out ++ [target])
      end
  end.

Definition prepareTargetVectors (b : Builder) (targets : list string)
  : list string :=
  prepare_loop b targets [].

(** The loop over the map in [build]: marshal each value, panic on the
    first one the encoder refuses, else append ["k: json"]. *)
Fixpoint marshal_targets (entries : list (string * list (list float32)))
    (vectorPerTarget : list string) : outcome (list string) :=
  match entries with
  | [] => Returns vectorPerTarget
  | (k, v) :: rest =>
      match json_Marshal_vectors json_float32 v with
      | inr err => Panics (PanicString ("could not marshal vector: " +:+ err))
      | inl vBytes =>
          marshal_targets rest (vectorPerTarget ++ [k +:+ ": " +:+ vBytes])
      end
  end.

(** The slice [clause] as [build] leaves it before the final join. *)
Definition build_clause (b : Builder) : outcome (list string) :=
  let clause : list string := [] in
  let clause :=
    if withCertainty b
    then clause ++ ["certainty: " +:+ fmt_float32 (certainty b)]
    else clause in
  let clause :=
    if withDistance b
    then clause ++ ["distance: " +:+ fmt_float32 (distance b)]
    else clause in
  obind
    (if (0 <? size (vectorsPerTarget b))%nat
     then obind (marshal_targets (map_range (vectorsPerTarget b)) [])
            (fun vectorPerTarget =>
               Returns (clause ++ ["vectorPerTarget: {" +:+
                          String.concat "," vectorPerTarget +:+ "}"]))
     else Returns clause)
    (fun clause =>
  obind
    (if (negb (length (vector b) =? 0) && (size (vectorsPerTarget b) =? 0))%nat
     then match json_Marshal_vector json_float32 (vector b) with
          | inr err =>
              Panics (PanicError
                ("failed to unmarshal nearVector search vector: " +:+ err))
          | inl vectorB => Returns (clause ++ ["vector: " +:+ vectorB])
          end
     else Returns clause)
    (fun clause =>
  let clause :=
    match targets b with
    | Some t => clause ++ ["targets: {" +:+ targets_build t +:+ "}"]
    | None => clause
    end in
  let targetVectors := prepareTargetVectors b (targetVectors b) in
  let clause :=
    if (0 <? length targetVectors)%nat
    then clause ++ ["targetVectors: " +:+ json_Marshal_strings targetVectors]
    else clause in
  Returns clause)).

Definition build (b : Builder) : outcome string :=
  obind (build_clause b)
    (fun clause =>
       Returns ("nearVector:{" +:+ String.concat " " clause +:+ "}")).
End Builder.

(** What the documentation of [prepareTargetVectors] says one declared
    target contributes: its name once per vector associated with it, or
    once when the mapping has no entry for it. *)
Definition emitted_for {MultiTargetArgumentBuilder : Type}
    (b : NearVectorArgumentBuilder MultiTargetArgumentBuilder)
    (target : string) : list string :=
  match vectorsPerTarget b !! target with
  | Some vectors => replicate (length vectors) target
  | None => [target]
  end.

(** ** The orchestrator: [processQuery] *)

(** What [processQuery] writes besides its return value: [log.Printf] lines
    and [fmt.Println] lines, by their text. *)
Inductive event :=
  | Log (msg : string)
  | Stdout (line : string).

Definition nl : string := String "010"%char EmptyString.

Definition ollamaModel : string := "llama3.2".

(** The three strings [processQuery] returns on a failed stage. *)
Definition embedding_apology : string :=
  "죄송합니다. 쿼리 처리 중 오류가 발생했습니다.".
Definition retrieval_apology : string :=
  "죄송합니다. 관련 정보를 찾는 중 오류가 발생했습니다.".
Definition generation_apology : string :=
  "죄송합니다. 답변을 생성하는 중 오류가 발생했습니다.".

Definition context_header : string :=
  "다음 정보를 바탕으로 질문에 답하세요:" +:+ nl.

(** The Ollama client, by what its two calls hand back.  [Generate] passes
    each streamed chunk to the callback, which never fails here, and then
    returns its error: the chunks delivered and the final [err]. *)
Record OllamaClient := {
  Embeddings : string -> string -> result (list float64);
  Generate : string -> string -> list string * option error;
}.

(** The callback [answer += response.Response], over the chunks in arrival
    order. *)
Definition collect_answer (chunks : list string) : string :=
  fold_left (fun answer response => answer +:+ response) chunks "".

Definition prompt_of (context query : string) : string :=
  context +:+ nl +:+ "질문: " +:+ query +:+ nl +:+ "답변:".

(** Each text followed by a line break, in the order given. *)
Fixpoint lines (texts : list string) : string :=
  match texts with
  | [] => ""
  | text :: rest => text +:+ nl +:+ lines rest
  end.

Module Weaviate.
Definition className : string := "Sbb".

(** A decoded JSON value held in an [interface{}]. *)
Inductive iface :=
  | INil
  | IBool (b : bool)
  | IFloat64 (f : float64)
  | IString (s : string)
  | ISlice (l : list iface)
  | IMap (m : gmap string iface).

Record GraphQLResponse := { Data : gmap string iface }.

(** The two type assertions [doc.(map[string]interface{})] and
    [item["text"].(string)] on one document: its text, if it has one. *)
Definition document_text (doc : iface) : option string :=
  match doc with
  | IMap item =>
      match item !! "text" with
      | Some (IString text) => Some text
      | _ => None
      end
  | _ => None
  end.

Section Orchestrator.
Context {MultiTargetArgumentBuilder : Type}.

(** [GraphQL().Get().WithClassName(c).WithFields(fs).WithNearVector(nv)
    .WithLimit(n).Do(ctx)], by what it hands back. *)
Record Client := {
  Get_Do : string -> list string ->
           NearVectorArgumentBuilder MultiTargetArgumentBuilder -> nat ->
           result GraphQLResponse;
}.

(** The loop over [documents]: a document that is not an object, or
    whose ["text"] is absent or not a string, adds nothing. *)
Fixpoint context_loop (documents : list iface) (context : string)
  : string :=
  match documents with
  | [] => context
  | doc :: rest =>
      match doc with
      | IMap item =>
          match item !! "text" with
          | Some (IString text) =>
              context_loop rest (context +:+ (text +:+ nl))
          | _ => context_loop rest context
          end
      | _ => context_loop rest context
      end
  end.

Definition assemble_context (result : GraphQLResponse) : string :=
  let context := context_header in
  match Data result !! "Get" with
  | Some (IMap data) =>
      match data !! className with
      | Some (ISlice documents) => context_loop documents context
      | _ => context
      end
  | _ => context
  end.

(** [processQuery] of main.go on the runs in which [Do] returns;
    [processQuery_outcome] below adds the panics of [Do]. *)
Definition processQuery (ollamaClient : OllamaClient)
    (weaviateClient : Client) (query : string) : string * list event :=
  match Embeddings ollamaClient ollamaModel query with
  | inr err =>
      (embedding_apology, [Log ("쿼리 임베딩 실패: " +:+ err)])
  | inl embedding =>
      let nearVector :=
        WithVector (convertToFloat32 embedding) new_builder in
      match Get_Do weaviateClient className ["text"] nearVector 3 with
      | inr err =>
          (retrieval_apology, [Log ("유사 문서 검색 실패: " +:+ err)])
      | inl result =>
          let context := assemble_context result in
          let out := [Stdout ("Context: " +:+ context +:+ nl)] in
          let '(chunks, err) :=
            Generate ollamaClient ollamaModel (prompt_of context query) in
          let answer := collect_answer chunks in
          match err with
          | Some err =>
              (generation_apology,
               out ++ [Log ("LLM 응답 생성 실패: " +:+ err)])
          | None => (answer, out)
          end
      end
  end.
End Orchestrator.
Arguments Client : clear implicits.

Section Raising.
Context {MultiTargetArgumentBuilder : Type}.
Variable targets_build : MultiTargetArgumentBuilder -> string.
Variable fmt_float32 : float32 -> string.
Variable json_float32 : float32 -> string.
Variable json_Marshal_strings : list string -> string.
Variable map_range :
  gmap string (list (list float32)) -> list (string * list (list float32)).

(** Modelled from the spec: the Get builder and its [Do] are in a file of
    the client that is not among the sources.  The specification has the
    store run a search on the output of the query builder (sections 2 and
    4.4), so [Do] first builds the nearVector clause, which panics on a
    vector the encoder refuses, and only then hands the request to the
    store, whose answer is [Get_Do]. *)
Definition Do (weaviateClient : Client MultiTargetArgumentBuilder)
    (className : string) (fields : list string)
    (nearVector : NearVectorArgumentBuilder MultiTargetArgumentBuilder)
    (limit : nat) : outcome (result GraphQLResponse) :=
  match build targets_build fmt_float32 json_float32 json_Marshal_strings
          map_range nearVector with
  | Panics p => Panics p
  | Returns _ =>
      Returns (Get_Do weaviateClient className fields nearVector limit)
  end.

(** [processQuery] of main.go with the panics of [Do]: there is no
    [recover], so a panic of [Do] is the panic of [processQuery].  What the
    call returns or panics with, and what it wrote before. *)
Definition processQuery_outcome (ollamaClient : OllamaClient)
    (weaviateClient : Client MultiTargetArgumentBuilder) (query : string)
  : outcome string * list event :=
  match Embeddings ollamaClient ollamaModel query with
  | inr err =>
      (Returns embedding_apology, [Log ("쿼리 임베딩 실패: " +:+ err)])
  | inl embedding =>
      let nearVector :=
        WithVector (convertToFloat32 embedding) new_builder in
      match Do weaviateClient className ["text"] nearVector 3 with
      | Panics p => (Panics p, [])
      | Returns (inr err) =>
          (Returns retrieval_apology,
           [Log ("유사 문서 검색 실패: " +:+ err)])
      | Returns (inl result) =>
          let context := assemble_context result in
          let out := [Stdout ("Context: " +:+ context +:+ nl)] in
          let '(chunks, err) :=
            Generate ollamaClient ollamaModel (prompt_of context query) in
          let answer := collect_answer chunks in
          match err with
          | Some err =>
              (Returns generation_apology,
               out ++ [Log ("LLM 응답 생성 실패: " +:+ err)])
          | None => (Returns answer, out)
          end
      end
  end.
End Raising.

End Weaviate.

Module Qdrant.
Definition collectionName : string := "documents".

(** The protobuf [Value] of a payload entry, by its kind. *)
Inductive Value :=
  | Value_NullValue
  | Value_DoubleValue (d : float64)
  | Value_IntegerValue (n : Z)
  | Value_StringValue (s : string)
  | Value_BoolValue (b : bool)
  | Value_StructValue (fields : gmap string Value)
  | Value_ListValue (values : list Value).

(** The generated getter, called on the (possibly nil) pointer that the
    map index yields: the string of a string value, else [""]. *)
Definition GetStringValue (x : option Value) : string :=
  match x with
  | Some (Value_StringValue s) => s
  | _ => ""
  end.

Record ScoredPoint := {
  Score : float32;
  Payload : gmap string Value;
}.

(** [qdrantClient.Search(ctx, &SearchPoints{CollectionName, Vector, Limit,
    WithPayload})], by what it hands back. *)
Record PointsClient := {
  Points_Search : string -> list float32 -> nat -> bool -> result (list ScoredPoint);
}.

Fixpoint context_loop (points : list ScoredPoint) (context : string)
  : string :=
  match points with
  | [] => context
  | point :: rest =>
      context_loop rest
        (context +:+ (GetStringValue (Payload point !! "text") +:+ nl))
  end.

Definition assemble_context (searchResp : list ScoredPoint) : string :=
  context_loop searchResp context_header.

Definition processQuery (ollamaClient : OllamaClient)
    (qdrantClient : PointsClient) (query : string) : string * list event :=
  match Embeddings ollamaClient ollamaModel query with
  | inr err =>
      (embedding_apology, [Log ("쿼리 임베딩 실패: " +:+ err)])
  | inl embedding =>
      match Points_Search qdrantClient collectionName
              (convertToFloat32 embedding) 3 true with
      | inr err =>
          (retrieval_apology, [Log ("유사 문서 검색 실패: " +:+ err)])
      | inl searchResp =>
          let context := assemble_context searchResp in
          let out := [Stdout ("createCollection " +:+ context +:+ nl)] in
          let '(chunks, err) :=
            Generate ollamaClient ollamaModel (prompt_of context query) in
          let answer := collect_answer chunks in
          match err with
          | Some err =>
              (generation_apology,
               out ++ [Log ("LLM 응답 생성 실패: " +:+ err)])
          | None => (answer, out)
          end
      end
  end.
End Qdrant.

(** What both variants of [processQuery] return once embedding and search
    have succeeded: the outcome of [Generate] decides alone. *)
Definition after_retrieval (ollamaClient : OllamaClient)
    (context query : string) : string :=
  match Generate ollamaClient ollamaModel (prompt_of context query) with
  | (_, Some _) => generation_apology
  | (chunks, None) => collect_answer chunks
  end.

(** ** Stand-ins for the Go library's formatting, to run the model

    The properties below hold for every formatter and every walk order of
    the map; these let the definitions be evaluated on concrete builders. *)
Module Sample.
Definition quote : string := String "034"%char EmptyString.

(** Mantissa and binary exponent, in decimal. *)
Definition show_float (f : spec_float) : string :=
  match f with
  | S754_zero s => if s then "-0" else "0"
  | S754_infinity s => if s then "-Inf" else "+Inf"
  | S754_nan => "NaN"
  | S754_finite s m e =>
      (if s then "-" else "") +:+ pretty (Zpos m) +:+ "p" +:+ pretty e
  end.

Definition show_strings (l : list string) : string :=
  "[" +:+ String.concat "," (map (fun s => quote +:+ s +:+ quote) l) +:+ "]".

Definition no_targets (t : Empty_set) : string := "".

Definition one : float32 := S754_finite false 8388608 (-23).

Definition build_sample (b : NearVectorArgumentBuilder Empty_set)
  : outcome string :=
  build no_targets show_float show_float show_strings map_to_list b.

Definition build_clause_sample (b : NearVectorArgumentBuilder Empty_set)
  : outcome (list string) :=
  build_clause no_targets show_float show_float show_strings map_to_list b.

(** Collaborators that answer the same thing to every call. *)
Definition ollama_ok : OllamaClient :=
  {| Embeddings := fun _ _ => inl [S754_finite false 3 0];
     Generate := fun _ _ => (["an"; "swer"], None) |}.

Definition ollama_no_embedding : OllamaClient :=
  {| Embeddings := fun _ _ => inr "connection refused";
     Generate := fun _ _ => ([], None) |}.

Definition ollama_no_generation : OllamaClient :=
  {| Embeddings := fun _ _ => inl [S754_finite false 3 0];
     Generate := fun _ _ => (["an"], Some "stream closed") |}.

(** Two hits: the first has no ["text"], the second has one. *)
Definition weaviate_response : Weaviate.GraphQLResponse :=
  {| Weaviate.Data :=
       {[ "Get" :=
            Weaviate.IMap
              {[ "Sbb" :=
                   Weaviate.ISlice
                     [Weaviate.IMap ∅;
                      Weaviate.IMap {[ "text" := Weaviate.IString "kept" ]}]
              ]} ]} |}.

Definition weaviate_ok : Weaviate.Client Empty_set :=
  {| Weaviate.Get_Do := fun _ _ _ _ => inl weaviate_response |}.

Definition weaviate_down : Weaviate.Client Empty_set :=
  {| Weaviate.Get_Do := fun _ _ _ _ => inr "timeout" |}.

Definition qdrant_points : list Qdrant.ScoredPoint :=
  [ {| Qdrant.Score := one; Qdrant.Payload := ∅ |};
    {| Qdrant.Score := one;
       Qdrant.Payload := {[ "text" := Qdrant.Value_StringValue "kept" ]} |} ].

Definition qdrant_ok : Qdrant.PointsClient :=
  {| Qdrant.Points_Search := fun _ _ _ _ => inl qdrant_points |}.

Definition qdrant_down : Qdrant.PointsClient :=
  {| Qdrant.Points_Search := fun _ _ _ _ => inr "timeout" |}.

(** An embedding whose only component is 2^128: finite as a [float64],
    beyond the largest [float32]. *)
Definition ollama_overflow : OllamaClient :=
  {| Embeddings := fun _ _ => inl [S754_finite false 4503599627370496 76];
     Generate := fun _ _ => (["an"; "swer"], None) |}.

Definition processQuery_outcome_sample (ollamaClient : OllamaClient)
    (weaviateClient : Weaviate.Client Empty_set) (query : string)
  : outcome string * list event :=
  Weaviate.processQuery_outcome no_targets show_float show_float show_strings
    map_to_list ollamaClient weaviateClient query.
End Sample.

(** ** Indexing: [indexDocuments] *)

(** What [indexDocuments] does, in order: the requests it sends to the
    store and the lines it logs. *)
Inductive step (Request : Type) :=
  | Called (request : Request)
  | Logged (msg : string).
Arguments Called {Request} request.
Arguments Logged {Request} msg.

(** The requests of a trace, in order. *)
Definition calls {Request : Type} (trace : list (step Request))
  : list Request :=
  omap (fun s => match s with Called r => Some r | Logged _ => None end) trace.

(** The logged lines of a trace, in order. *)
Definition logged {Request : Type} (trace : list (step Request))
  : list string :=
  omap (fun s => match s with Logged m => Some m | Called _ => None end) trace.

Module WeaviateData.

(** [Data().Creator().WithClassName(c).WithProperties(p).WithVector(v)] *)
Record CreateRequest := {
  create_class : string;
  create_properties : gmap string Weaviate.iface;
  create_vector : list float32;
}.

(** [.Do(ctx)] on such a request, by the error it hands back (the code
    drops the created object). *)
Record Creator := { Creator_Do : CreateRequest -> option error }.

(** main.go, [indexDocuments]. *)
Fixpoint indexDocuments (ollamaClient : OllamaClient)
    (weaviateClient : Creator) (documents : list string)
  : list (step CreateRequest) :=
  match documents with
  | [] => []
  | doc :: rest =>
      match Embeddings ollamaClient ollamaModel doc with
      | inr err =>
          Logged ("문서 임베딩 실패: " +:+ err) ::
          indexDocuments ollamaClient weaviateClient rest
      | inl embedding =>
          let request :=
            {| create_class := Weaviate.className;
               create_properties := {[ "text" := Weaviate.IString doc ]};
               create_vector := convertToFloat32 embedding |} in
          match Creator_Do weaviateClient request with
          | Some err =>
              Called request :: Logged ("벡터 삽입 실패: " +:+ err) ::
              indexDocuments ollamaClient weaviateClient rest
          | None =>
              Called request ::
              indexDocuments ollamaClient weaviateClient rest
          end
      end
  end.

End WeaviateData.

Module QdrantData.

(** [PointStruct]: the id is a [uint64]; [uint64(i)] of a slice index is
    exact, an index being a non-negative [int]. *)
Record PointStruct := {
  Id : N;
  Vectors : list float32;
  Payload : gmap string Qdrant.Value;
}.

Record UpsertPoints := {
  CollectionName : string;
  Points : list PointStruct;
}.

(** [qdrantClient.Upsert(ctx, req)], by the error it hands back. *)
Record UpsertClient := { Upsert : UpsertPoints -> option error }.

(** The loop [for i, doc := range documents], from index [i] on. *)
Fixpoint index_loop (ollamaClient : OllamaClient)
    (qdrantClient : UpsertClient) (i : nat) (documents : list string)
  : list (step UpsertPoints) :=
  match documents with
  | [] => []
  | doc :: rest =>
      match Embeddings ollamaClient ollamaModel doc with
      | inr err =>
          Logged ("문서 임베딩 실패: " +:+ err) ::
          index_loop ollamaClient qdrantClient (S i) rest
      | inl embedding =>
          let request :=
            {| CollectionName := Qdrant.collectionName;
               Points :=
                 [ {| Id := N.of_nat i;
                      Vectors := convertToFloat32 embedding;
                      Payload := {[ "text" := Qdrant.Value_StringValue doc ]}
                   |} ] |} in
          match Upsert qdrantClient request with
          | Some err =>
              Called request :: Logged ("벡터 삽입 실패: " +:+ err) ::
              index_loop ollamaClient qdrantClient (S i) rest
          | None =>
              Called request ::
              index_loop ollamaClient qdrantClient (S i) rest
          end
      end
  end.

(** The Qdrant variant of [indexDocuments]. *)
Definition indexDocuments (ollamaClient : OllamaClient)
    (qdrantClient : UpsertClient) (documents : list string)
  : list (step UpsertPoints) :=
  index_loop ollamaClient qdrantClient 0 documents.

(** The ids of the points a trace sent to the store, in order. *)
Definition point_ids (trace : list (step UpsertPoints)) : list N :=
  flat_map (fun request => map Id (Points request)) (calls trace).

End QdrantData.

(** ** The OpenAI variant of the orchestrator (chatgpt.gobak) *)

Module OpenAI.

Inductive EmbeddingModel := AdaEmbeddingV2.
Inductive ChatModel := GPT3Dot5Turbo.
Inductive ChatRole := ChatMessageRoleSystem | ChatMessageRoleUser.

Record ChatCompletionMessage := {
  Role : ChatRole;
  Content : string;
}.

(** The client by what its two calls hand back: the [Embedding] of each
    element of [resp.Data], and the [Message.Content] of each element of
    [chatResp.Choices]. *)
Record Client := {
  CreateEmbeddings :
    EmbeddingModel -> list string -> result (list (list float32));
  CreateChatCompletion :
    ChatModel -> list ChatCompletionMessage -> result (list string);
}.

(** The run-time panic of [s[0]] on an empty slice. *)
Definition index_out_of_range : panic_value :=
  PanicError "runtime error: index out of range [0] with length 0".

Definition system_message : ChatCompletionMessage :=
  {| Role := ChatMessageRoleSystem;
     Content :=
       "You are a helpful assistant that provides information about server access rights."
  |}.

Section Orchestrator.
Context {MultiTargetArgumentBuilder : Type}.

(** What the function returns or panics with, and what it wrote before. *)
Definition processQuery (openaiClient : Client)
    (weaviateClient : Weaviate.Client MultiTargetArgumentBuilder)
    (query : string) : outcome string * list event :=
  match CreateEmbeddings openaiClient AdaEmbeddingV2 [query] with
  | inr err =>
      (Returns embedding_apology, [Log ("쿼리 임베딩 실패: " +:+ err)])
  | inl [] => (Panics index_out_of_range, [])
  | inl (embedding :: _) =>
      let nearVector := WithVector embedding new_builder in
      match Weaviate.Get_Do weaviateClient Weaviate.className ["text"]
              nearVector 3 with
      | inr err =>
          (Returns retrieval_apology, [Log ("유사 문서 검색 실패: " +:+ err)])
      | inl result =>
          let context := Weaviate.assemble_context result in
          let out := [Stdout ("Context: " +:+ context +:+ nl)] in
          match CreateChatCompletion openaiClient GPT3Dot5Turbo
                  [system_message;
                   {| Role := ChatMessageRoleUser;
                      Content := context +:+ nl +:+ "질문: " +:+ query |}] with
          | inr err =>
              (Returns generation_apology,
               out ++ [Log ("ChatGPT 응답 생성 실패: " +:+ err)])
          | inl [] => (Panics index_out_of_range, out)
          | inl (content :: _) => (Returns content, out)
          end
      end
  end.

End Orchestrator.

End OpenAI.

(** *** Collaborators for indexing that answer by the document *)

Module SampleData.

(** Embeds every document but ["bad"]. *)
Definition ollama_picky : OllamaClient :=
  {| Embeddings := fun _ prompt =>
       if String.eqb prompt "bad" then inr "no embedding"
       else inl [S754_finite false 3 0; S754_zero false];
     Generate := fun _ _ => ([], None) |}.

Definition creator_ok : WeaviateData.Creator :=
  {| WeaviateData.Creator_Do := fun _ => None |}.

Definition upsert_ok : QdrantData.UpsertClient :=
  {| QdrantData.Upsert := fun _ => None |}.


Definition openai_ok : OpenAI.Client :=
  {| OpenAI.CreateEmbeddings := fun _ _ => inl [[Sample.one]];
     OpenAI.CreateChatCompletion := fun _ _ => inl ["one"; "two"] |}.

Definition openai_no_choice : OpenAI.Client :=
  {| OpenAI.CreateEmbeddings := fun _ _ => inl [[Sample.one]];
     OpenAI.CreateChatCompletion := fun _ _ => inl [] |}.

End SampleData.

(** * Properties *)

(** ** [convertToFloat32] *)

Lemma convert_loop_spec (f64 : list float64) :
  forall (done_ : list float32) (z : float32),
    convert_loop f64 (length done_) (done_ ++ replicate (length f64) z)
    = done_ ++ map to_float32 f64.
Proof.
  induction f64 as [|v rest IH]; intros done_ z; simpl.
  - reflexivity.
  - replace (<[length done_ := to_float32 v]> (done_ ++ z :: replicate (length rest) z))
      with ((done_ ++ [to_float32 v]) ++ replicate (length rest) z).
    + replace (S (length done_)) with (length (done_ ++ [to_float32 v])).
      * rewrite IH. by rewrite <- app_assoc.
      * rewrite length_app. simpl. lia.
    + rewrite <- app_assoc. simpl.
      rewrite insert_app_r_alt by lia.
      by rewrite Nat.sub_diag.
Qed.

Lemma convertToFloat32_map (f64 : list float64) :
  convertToFloat32 f64 = map to_float32 f64.
Proof.
  unfold convertToFloat32.
  apply (convert_loop_spec f64 [] (S754_zero false)).
Qed.

(** C10: [convertToFloat32] returns a list as long as its input (the
    embedding dimension is kept), and its i-th element is the [float32]
    conversion of the i-th input element. *)
Theorem convertToFloat32_pointwise (f64 : list float64) :
  length (convertToFloat32 f64) = length f64 /\
  forall (i : nat) (v : float64),
    f64 !! i = Some v -> convertToFloat32 f64 !! i = Some (to_float32 v).
Proof.
  rewrite convertToFloat32_map. split.
  - apply length_map.
  - intros i v Hi. rewrite list_lookup_fmap. by rewrite Hi.
Qed.

Lemma convertToFloat32_pointwise_witness :
  length (convertToFloat32 [S754_finite false 3 0; S754_nan]) = 2 /\
  convertToFloat32 [S754_finite false 3 0; S754_nan] !! 0
  = Some (S754_finite false 12582912 (-22)).
Proof.
  split.
  - exact (proj1 (convertToFloat32_pointwise [S754_finite false 3 0; S754_nan])).
  - apply (proj2 (convertToFloat32_pointwise [S754_finite false 3 0; S754_nan])
             0 (S754_finite false 3 0)).
    reflexivity.
Defined.

(** ** [prepareTargetVectors] *)

Section PrepareTargetVectors.
Context {MultiTargetArgumentBuilder : Type}.
Implicit Types b : NearVectorArgumentBuilder MultiTargetArgumentBuilder.

Lemma append_per_vector_replicate vectors target out :
  append_per_vector vectors target out
  = out ++ replicate (length vectors) target.
Proof.
  revert out. induction vectors as [|v rest IH]; intros out; simpl.
  - by rewrite app_nil_r.
  - rewrite IH. by rewrite <- app_assoc.
Qed.

Lemma prepare_loop_flat_map b declared out :
  prepare_loop b declared out = out ++ flat_map (emitted_for b) declared.
Proof.
  revert out. induction declared as [|t rest IH]; intros out; simpl.
  - by rewrite app_nil_r.
  - unfold emitted_for at 1.
    destruct (vectorsPerTarget b !! t) as [vectors|].
    + rewrite IH, append_per_vector_replicate. by rewrite <- app_assoc.
    + rewrite IH. by rewrite <- app_assoc.
Qed.

Lemma prepareTargetVectors_flat_map b declared :
  prepareTargetVectors b declared = flat_map (emitted_for b) declared.
Proof. apply (prepare_loop_flat_map b declared []). Qed.

Lemma count_occ_replicate (n : nat) (t x : string) :
  count_occ string_dec (replicate n t) x = if string_dec t x then n else 0.
Proof.
  induction n as [|n IH]; simpl.
  - by destruct (string_dec t x).
  - rewrite IH. by destruct (string_dec t x).
Qed.

Lemma count_occ_emitted_for b (x t : string) :
  count_occ string_dec (emitted_for b x) t
  = if string_dec x t then length (emitted_for b t) else 0.
Proof.
  unfold emitted_for.
  destruct (string_dec x t) as [->|Hne].
  - destruct (vectorsPerTarget b !! t) as [vectors|].
    + rewrite count_occ_replicate, length_replicate.
      by destruct (string_dec t t).
    + simpl. by destruct (string_dec t t).
  - destruct (vectorsPerTarget b !! x) as [vectors|].
    + rewrite count_occ_replicate. by destruct (string_dec x t).
    + simpl. by destruct (string_dec x t).
Qed.

Lemma count_occ_prepareTargetVectors b declared (t : string) :
  count_occ string_dec (prepareTargetVectors b declared) t
  = count_occ string_dec declared t * length (emitted_for b t).
Proof.
  rewrite prepareTargetVectors_flat_map.
  induction declared as [|x rest IH]; simpl; [done|].
  rewrite count_occ_app, IH, count_occ_emitted_for.
  destruct (string_dec x t); lia.
Qed.

Lemma elem_of_emitted_for b (x t : string) :
  x ∈ emitted_for b t -> x = t.
Proof.
  unfold emitted_for. destruct (vectorsPerTarget b !! t) as [vectors|].
  - intros H. by apply elem_of_replicate in H as [-> _].
  - intros H. by apply list_elem_of_singleton in H.
Qed.

(** C1: the flat list [prepareTargetVectors] returns is, declared target
    by declared target and in their order, the name once per vector the
    mapping associates with it, or once when the mapping has no entry
    for it; so a name occurs once per vector (or once) for each of its
    occurrences in the declared list.  For declared [t1; t2] and the
    mapping {t1: [v1; v2]} the result is [t1; t1; t2]. *)
Theorem prepareTargetVectors_once_per_vector b (declared : list string) :
  prepareTargetVectors b declared = flat_map (emitted_for b) declared /\
  (forall (t : string) (vectors : list (list float32)),
     vectorsPerTarget b !! t = Some vectors ->
     count_occ string_dec (prepareTargetVectors b declared) t
     = count_occ string_dec declared t * length vectors) /\
  (forall t : string,
     vectorsPerTarget b !! t = None ->
     count_occ string_dec (prepareTargetVectors b declared) t
     = count_occ string_dec declared t) /\
  (forall (t1 t2 : string) (v1 v2 : list float32),
     t1 <> t2 ->
     vectorsPerTarget b = {[ t1 := [v1; v2] ]} ->
     prepareTargetVectors b [t1; t2] = [t1; t1; t2]).
Proof.
  split; [apply prepareTargetVectors_flat_map|].
  split; [|split].
  - intros t vectors Ht. rewrite count_occ_prepareTargetVectors.
    unfold emitted_for. by rewrite Ht, length_replicate.
  - intros t Ht. rewrite count_occ_prepareTargetVectors.
    unfold emitted_for. rewrite Ht. simpl. lia.
  - intros t1 t2 v1 v2 Hne Hm. rewrite prepareTargetVectors_flat_map.
    simpl. unfold emitted_for. rewrite Hm.
    rewrite lookup_singleton_eq, lookup_singleton_ne by done.
    reflexivity.
Qed.

(** C9: every name in the list [prepareTargetVectors] returns was
    declared; a target of the mapping that was not declared adds
    nothing to it. *)
Theorem prepareTargetVectors_only_declared b (declared : list string) :
  (forall x : string, x ∈ prepareTargetVectors b declared -> x ∈ declared) /\
  (forall t : string,
     is_Some (vectorsPerTarget b !! t) ->
     t ∉ declared -> t ∉ prepareTargetVectors b declared).
Proof.
  assert (Hsub : forall x : string,
             x ∈ prepareTargetVectors b declared -> x ∈ declared).
  { intros x. rewrite prepareTargetVectors_flat_map.
    rewrite !list_elem_of_In, in_flat_map.
    intros (t & Ht & Hx). apply list_elem_of_In in Hx.
    apply elem_of_emitted_for in Hx. by subst. }
  split; [exact Hsub|].
  intros t _ Hnot Hin. apply Hnot, Hsub, Hin.
Qed.

End PrepareTargetVectors.

Lemma prepareTargetVectors_once_per_vector_witness :
  let b : NearVectorArgumentBuilder Empty_set :=
    WithVectorsPerTarget {[ "t1" := [[Sample.one]; [Sample.one]] ]} new_builder in
  "t1" <> "t2" /\
  vectorsPerTarget b = {[ "t1" := [[Sample.one]; [Sample.one]] ]} /\
  prepareTargetVectors b ["t1"; "t2"] = ["t1"; "t1"; "t2"] /\
  count_occ string_dec (prepareTargetVectors b ["t1"; "t2"]) "t1" = 1 * 2 /\
  count_occ string_dec (prepareTargetVectors b ["t1"; "t2"]) "t2" = 1.
Proof.
  intros b.
  assert (Hne : "t1" <> "t2") by discriminate.
  assert (Hm : vectorsPerTarget b = {[ "t1" := [[Sample.one]; [Sample.one]] ]})
    by reflexivity.
  destruct (prepareTargetVectors_once_per_vector b ["t1"; "t2"])
    as (_ & Hsome & Hnone & Hex).
  split; [exact Hne|]. split; [exact Hm|]. split; [|split].
  - exact (Hex "t1" "t2" [Sample.one] [Sample.one] Hne Hm).
  - apply (Hsome "t1" [[Sample.one]; [Sample.one]]). reflexivity.
  - apply (Hnone "t2"). reflexivity.
Defined.

Lemma prepareTargetVectors_only_declared_witness :
  let b : NearVectorArgumentBuilder Empty_set :=
    WithVectorsPerTarget
      {[ "v1" := [[Sample.one]]; "v3" := [[Sample.one]] ]} new_builder in
  (is_Some (vectorsPerTarget b !! "v3")) /\
  ("v3" ∉ ["v1"; "v2"]) /\
  ("v3" ∉ prepareTargetVectors b ["v1"; "v2"]).
Proof.
  intros b.
  assert (Hsome : is_Some (vectorsPerTarget b !! "v3")) by (eexists; reflexivity).
  assert (Hnot : "v3" ∉ ["v1"; "v2"]).
  { intros H. apply list_elem_of_In in H. simpl in H.
    destruct H as [H|[H|[]]]; discriminate H. }
  split; [exact Hsome|]. split; [exact Hnot|].
  exact (proj2 (prepareTargetVectors_only_declared b ["v1"; "v2"])
           "v3" Hsome Hnot).
Defined.

(** ** The JSON encoder on vectors *)

Section JsonFacts.
Variable json_float32 : float32 -> string.

Lemma json_floats_ok (v : list float32) :
  existsb is_nan_or_inf v = false ->
  json_floats json_float32 v = inl (map json_float32 v).
Proof.
  induction v as [|f rest IH]; simpl; [done|].
  intros H. apply orb_false_iff in H as [Hf Hrest].
  by rewrite Hf, (IH Hrest).
Qed.

Lemma json_floats_fail (v : list float32) :
  existsb is_nan_or_inf v = true ->
  exists f, f ∈ v /\ is_nan_or_inf f = true /\
            json_floats json_float32 v = inr (unsupported_value f).
Proof.
  induction v as [|f rest IH]; simpl; [discriminate|].
  destruct (is_nan_or_inf f) eqn:Hf; simpl.
  - intros _. exists f. split; [left|done].
  - intros H. destruct (IH H) as (g & Hin & Hg & ->).
    exists g. split; [by right|done].
Qed.

Lemma json_Marshal_vector_ok (v : list float32) :
  existsb is_nan_or_inf v = false ->
  json_Marshal_vector json_float32 v
  = inl ("[" +:+ String.concat "," (map json_float32 v) +:+ "]").
Proof.
  intros H. unfold json_Marshal_vector. by rewrite (json_floats_ok v H).
Qed.

Lemma json_Marshal_vector_fail (v : list float32) :
  existsb is_nan_or_inf v = true ->
  exists f, f ∈ v /\ is_nan_or_inf f = true /\
            json_Marshal_vector json_float32 v = inr (unsupported_value f).
Proof.
  intros H. destruct (json_floats_fail v H) as (f & Hin & Hf & Heq).
  exists f. unfold json_Marshal_vector. by rewrite Heq.
Qed.

Lemma json_Marshal_vectors_ok (vs : list (list float32)) :
  existsb (existsb is_nan_or_inf) vs = false ->
  exists s, json_Marshal_vectors json_float32 vs = inl s.
Proof.
  intros H. unfold json_Marshal_vectors.
  assert (exists out, json_vectors json_float32 vs = inl out) as [out ->];
    [|by eexists].
  induction vs as [|v rest IH]; simpl; [by eexists|].
  simpl in H. apply orb_false_iff in H as [Hv Hrest].
  rewrite (json_Marshal_vector_ok v Hv).
  destruct (IH Hrest) as [out ->]. by eexists.
Qed.

Lemma json_Marshal_vectors_fail (vs : list (list float32)) :
  existsb (existsb is_nan_or_inf) vs = true ->
  exists v f, v ∈ vs /\ f ∈ v /\ is_nan_or_inf f = true /\
    json_Marshal_vectors json_float32 vs = inr (unsupported_value f).
Proof.
  intros H. unfold json_Marshal_vectors.
  assert (exists v f, v ∈ vs /\ f ∈ v /\ is_nan_or_inf f = true /\
            json_vectors json_float32 vs = inr (unsupported_value f))
    as (v & f & Hv & Hf & Hbad & ->); [|by exists v, f].
  induction vs as [|v rest IH]; simpl in *; [discriminate|].
  destruct (existsb is_nan_or_inf v) eqn:Hv; simpl in H.
  - destruct (json_Marshal_vector_fail v Hv) as (f & Hin & Hf & ->).
    exists v, f. split; [left|done].
  - rewrite (json_Marshal_vector_ok v Hv).
    destruct (IH H) as (w & f & Hw & Hin & Hf & ->).
    exists w, f. split; [by right|done].
Qed.

(** ** The loop of [build] over the mapping *)



Lemma marshal_targets_total entries (acc : list string) :
  Forall (fun kv => existsb (existsb is_nan_or_inf) kv.2 = false) entries ->
  exists out, marshal_targets json_float32 entries acc = Returns out.
Proof.
  revert acc. induction entries as [|[k v] rest IH]; intros acc Hall; simpl.
  - by eexists.
  - apply Forall_cons in Hall as [Hv Hrest]. simpl in Hv.
    destruct (json_Marshal_vectors_ok v Hv) as [s ->].
    by apply IH.
Qed.

Lemma marshal_targets_panics entries (acc : list string) :
  Exists (fun kv => existsb (existsb is_nan_or_inf) kv.2 = true) entries ->
  exists kv v f, kv ∈ entries /\ v ∈ kv.2 /\ f ∈ v /\
    is_nan_or_inf f = true /\
    marshal_targets json_float32 entries acc
    = Panics (PanicString
                ("could not marshal vector: " +:+ unsupported_value f)).
Proof.
  revert acc. induction entries as [|[k v] rest IH]; intros acc Hex.
  - by apply Exists_nil in Hex.
  - simpl. destruct (existsb (existsb is_nan_or_inf) v) eqn:Hv.
    + destruct (json_Marshal_vectors_fail v Hv) as (w & f & Hw & Hf & Hbad & ->).
      exists (k, v), w, f. split; [left|done].
    + destruct (json_Marshal_vectors_ok v Hv) as [s ->].
      apply Exists_cons in Hex as [Hex|Hex]; [simpl in Hex; congruence|].
      destruct (IH (acc ++ [k +:+ ": " +:+ s]) Hex)
        as (kv & w & f & Hkv & Hw & Hf & Hbad & ->).
      exists kv, w, f. split; [by right|done].
Qed.

End JsonFacts.

(** ** [build] *)

Section Build.
Context {MultiTargetArgumentBuilder : Type}.
Variable targets_build : MultiTargetArgumentBuilder -> string.
Variable fmt_float32 : float32 -> string.
Variable json_float32 : float32 -> string.
Variable json_Marshal_strings : list string -> string.
Variable map_range :
  gmap string (list (list float32)) -> list (string * list (list float32)).

(** Whatever the order, [range] visits each entry of the map once. *)
Hypothesis map_range_perm : forall m, map_range m ≡ₚ map_to_list m.

Implicit Types b : NearVectorArgumentBuilder MultiTargetArgumentBuilder.

Local Abbreviation build_clause' :=
  (build_clause targets_build fmt_float32 json_float32
     json_Marshal_strings map_range).
Local Abbreviation build' :=
  (build targets_build fmt_float32 json_float32
     json_Marshal_strings map_range).
Local Abbreviation marshal_targets' := (marshal_targets json_float32).

(** The clause list is the concatenation of six optional parts, in the
    order of the six [if] statements of [build]. *)
Lemma build_clause_parts b :
  build_clause' b =
  obind
    (if (0 <? size (vectorsPerTarget b))%nat
     then obind (marshal_targets' (map_range (vectorsPerTarget b)) [])
            (fun entries =>
               Returns ["vectorPerTarget: {" +:+
                          String.concat "," entries +:+ "}"])
     else Returns [])
    (fun perTarget =>
  obind
    (if (negb (length (vector b) =? 0) && (size (vectorsPerTarget b) =? 0))%nat
     then match json_Marshal_vector json_float32 (vector b) with
          | inr err =>
              Panics (PanicError
                ("failed to unmarshal nearVector search vector: " +:+ err))
          | inl vectorB => Returns ["vector: " +:+ vectorB]
          end
     else Returns [])
    (fun single =>
       Returns
         ((if withCertainty b
           then ["certainty: " +:+ fmt_float32 (certainty b)] else []) ++
          (if withDistance b
           then ["distance: " +:+ fmt_float32 (distance b)] else []) ++
          perTarget ++ single ++
          match targets b with
          | Some t => ["targets: {" +:+ targets_build t +:+ "}"]
          | None => []
          end ++
          (if (0 <? length (prepareTargetVectors b (targetVectors b)))%nat
           then ["targetVectors: " +:+
                   json_Marshal_strings
                     (prepareTargetVectors b (targetVectors b))]
           else [])))).
Proof.
  unfold build_clause.
  destruct (0 <? size (vectorsPerTarget b))%nat;
    [destruct (marshal_targets' (map_range (vectorsPerTarget b)) [])|];
    simpl; try reflexivity;
    (destruct (negb (length (vector b) =? 0)
               && (size (vectorsPerTarget b) =? 0))%nat;
     [destruct (json_Marshal_vector json_float32 (vector b))|];
     simpl; try reflexivity;
     destruct (withCertainty b), (withDistance b), (targets b),
       (0 <? length (prepareTargetVectors b (targetVectors b)))%nat;
     simpl; rewrite ?app_nil_r, <- ?app_assoc; reflexivity).
Qed.

Lemma prepareTargetVectors_WithVector b (v : list float32) declared :
  prepareTargetVectors (WithVector v b) declared
  = prepareTargetVectors b declared.
Proof. by rewrite !prepareTargetVectors_flat_map. Qed.

Lemma size_zero_eqb (m : gmap string (list (list float32))) :
  (0 < size m)%nat -> (0 <? size m)%nat = true /\ (size m =? 0)%nat = false.
Proof.
  intros H. split; [by apply Nat.ltb_lt|apply Nat.eqb_neq; lia].
Qed.

Lemma build_clause_WithVector b (v : list float32) :
  (0 < size (vectorsPerTarget b))%nat ->
  build_clause' (WithVector v b) = build_clause' b.
Proof.
  intros [Hpos Hzero]%size_zero_eqb.
  rewrite !build_clause_parts. simpl.
  rewrite prepareTargetVectors_WithVector.
  by rewrite Hzero, !andb_false_r.
Qed.

(** With a non-empty mapping the clause list has the per-target part and
    no single-vector part. *)
Lemma build_clause_per_target b clause :
  (0 < size (vectorsPerTarget b))%nat ->
  build_clause' b = Returns clause ->
  exists entries,
    marshal_targets' (map_range (vectorsPerTarget b)) [] = Returns entries /\
    clause =
      (if withCertainty b
       then ["certainty: " +:+ fmt_float32 (certainty b)] else []) ++
      (if withDistance b
       then ["distance: " +:+ fmt_float32 (distance b)] else []) ++
      ["vectorPerTarget: {" +:+ String.concat "," entries +:+ "}"] ++
      match targets b with
      | Some t => ["targets: {" +:+ targets_build t +:+ "}"]
      | None => []
      end ++
      (if (0 <? length (prepareTargetVectors b (targetVectors b)))%nat
       then ["targetVectors: " +:+
               json_Marshal_strings
                 (prepareTargetVectors b (targetVectors b))]
       else []).
Proof.
  intros [Hpos Hzero]%size_zero_eqb.
  rewrite build_clause_parts, Hpos, Hzero, andb_false_r.
  destruct (marshal_targets' (map_range (vectorsPerTarget b)) [])
    as [entries|]; simpl; [|discriminate].
  intros [= <-]. by exists entries.
Qed.



(** With an empty mapping the clause list has no per-target part, and a
    single-vector part exactly when the primary vector is non-empty. *)
Lemma build_clause_single b clause :
  size (vectorsPerTarget b) = 0%nat ->
  build_clause' b = Returns clause ->
  exists single,
    (match vector b with
     | [] => single = []
     | _ :: _ =>
         exists vectorB,
           json_Marshal_vector json_float32 (vector b) = inl vectorB /\
           single = ["vector: " +:+ vectorB]
     end) /\
    clause =
      (if withCertainty b
       then ["certainty: " +:+ fmt_float32 (certainty b)] else []) ++
      (if withDistance b
       then ["distance: " +:+ fmt_float32 (distance b)] else []) ++
      single ++
      match targets b with
      | Some t => ["targets: {" +:+ targets_build t +:+ "}"]
      | None => []
      end ++
      (if (0 <? length (prepareTargetVectors b (targetVectors b)))%nat
       then ["targetVectors: " +:+
               json_Marshal_strings
                 (prepareTargetVectors b (targetVectors b))]
       else []).
Proof.
  intros Hsize. rewrite build_clause_parts, Hsize. simpl.
  destruct (vector b) as [|f rest] eqn:Hv; simpl.
  - intros [= <-]. by exists [].
  - destruct (json_Marshal_vector json_float32 (f :: rest)) as [s|err];
      simpl; [|discriminate].
    intros [= <-]. exists ["vector: " +:+ s]. split; [by exists s|done].
Qed.

(** [build] returns when every vector it serialises is finite. *)
Lemma build_clause_total b :
  (forall k vs, vectorsPerTarget b !! k = Some vs ->
     existsb (existsb is_nan_or_inf) vs = false) ->
  existsb is_nan_or_inf (vector b) = false ->
  exists clause, build_clause' b = Returns clause.
Proof using map_range_perm.
  intros Hmap Hvec. rewrite build_clause_parts.
  destruct (marshal_targets_total json_float32
              (map_range (vectorsPerTarget b)) []) as [entries ->].
  { rewrite (map_range_perm (vectorsPerTarget b)).
    apply Forall_forall. intros [k vs] Hin.
    apply elem_of_map_to_list in Hin. by apply (Hmap k vs). }
  rewrite (json_Marshal_vector_ok json_float32 _ Hvec).
  destruct (0 <? size (vectorsPerTarget b))%nat,
    (negb (length (vector b) =? 0) && (size (vectorsPerTarget b) =? 0))%nat;
    simpl; by eexists.
Qed.

(** C3, as the code has it: a NaN or an infinity in a vector that [build]
    serialises stops [build] before any query string exists, by a panic
    that carries the encoder's message (an error value for the primary
    vector, a string for a mapped vector).  The primary vector is
    serialised only when the mapping is empty; with a non-empty mapping
    it is not looked at. *)
Theorem build_panics_on_serialised_non_finite b :
  (size (vectorsPerTarget b) = 0%nat ->
   existsb is_nan_or_inf (vector b) = true ->
   exists f, f ∈ vector b /\ is_nan_or_inf f = true /\
     build' b = Panics (PanicError
       ("failed to unmarshal nearVector search vector: " +:+
        unsupported_value f))) /\
  (forall k vs,
     vectorsPerTarget b !! k = Some vs ->
     existsb (existsb is_nan_or_inf) vs = true ->
     exists k' vs' v f,
       vectorsPerTarget b !! k' = Some vs' /\ v ∈ vs' /\ f ∈ v /\
       is_nan_or_inf f = true /\
       build' b = Panics (PanicString
         ("could not marshal vector: " +:+ unsupported_value f))) /\
  ((0 < size (vectorsPerTarget b))%nat ->
   forall v, build' (WithVector v b) = build' b).
Proof using map_range_perm.
  split; [|split].
  - intros Hsize Hbad.
    destruct (json_Marshal_vector_fail json_float32 _ Hbad)
      as (f & Hin & Hf & Herr).
    exists f. split; [done|]. split; [done|].
    unfold build. rewrite build_clause_parts, Hsize, Herr. simpl.
    destruct (vector b); [by apply elem_of_nil in Hin|done].
  - intros k vs Hk Hbad.
    assert (Hsize : (0 < size (vectorsPerTarget b))%nat).
    { destruct (size (vectorsPerTarget b)) eqn:Hz; [|lia].
      apply map_size_empty_iff in Hz. rewrite Hz in Hk.
      by rewrite lookup_empty in Hk. }
    destruct (marshal_targets_panics json_float32
                (map_range (vectorsPerTarget b)) [])
      as ([k' vs'] & v & f & Hkv & Hv & Hf & Hnf & Hp).
    { apply Exists_exists. exists (k, vs). split; [|done].
      rewrite (map_range_perm (vectorsPerTarget b)).
      by apply elem_of_map_to_list. }
    exists k', vs', v, f.
    rewrite (map_range_perm (vectorsPerTarget b)) in Hkv.
    apply elem_of_map_to_list in Hkv.
    repeat (split; [done|]).
    unfold build. rewrite build_clause_parts, Hp.
    by destruct (size_zero_eqb _ Hsize) as [-> _].
  - intros Hsize v. unfold build. by rewrite build_clause_WithVector.
Qed.

(** C4, as the code has it: the clause list holds a [vectorPerTarget:]
    entry exactly when the mapping is non-empty, and a [vector:] entry
    exactly when the mapping is empty and the primary vector is not;
    with both empty, [build] returns a clause with neither. *)
Theorem build_vector_entries b :
  (forall clause,
     build_clause targets_build fmt_float32 json_float32
       json_Marshal_strings map_range b = Returns clause ->
     ((exists c, c ∈ clause /\ String.prefix "vectorPerTarget: " c = true)
      <-> (0 < size (vectorsPerTarget b))%nat) /\
     ((exists c, c ∈ clause /\ String.prefix "vector: " c = true)
      <-> size (vectorsPerTarget b) = 0%nat /\ vector b <> [])) /\
  (size (vectorsPerTarget b) = 0%nat -> vector b = [] ->
   exists clause q,
     build_clause targets_build fmt_float32 json_float32
       json_Marshal_strings map_range b = Returns clause /\
     build targets_build fmt_float32 json_float32
       json_Marshal_strings map_range b = Returns q /\
     forall c, c ∈ clause ->
       String.prefix "vector: " c = false /\
       String.prefix "vectorPerTarget: " c = false).
Proof.
  clear map_range_perm.
  assert (Hcases : (0 < size (vectorsPerTarget b))%nat
                   \/ size (vectorsPerTarget b) = 0%nat) by lia.
  split.
  - intros clause Hclause. destruct Hcases as [Hsize|Hsize].
    + destruct (build_clause_per_target b clause Hsize Hclause)
        as (entries & _ & ->).
      split; (split; [intros (c & Hc & Hp)|intros H]).
      * done.
      * exists ("vectorPerTarget: {" +:+ String.concat "," entries +:+ "}").
        split; [|done].
        destruct (withCertainty b), (withDistance b); set_solver.
      * exfalso.
        destruct (withCertainty b), (withDistance b), (targets b),
          (0 <? length (prepareTargetVectors b (targetVectors b)))%nat;
          simpl in Hc; set_unfold; destruct_or?; subst; done.
      * lia.
    + destruct (build_clause_single b clause Hsize Hclause)
        as (single & Hsingle & ->).
      split; (split; [intros (c & Hc & Hp)|intros H]).
      * exfalso.
        destruct (vector b) as [|f rest];
          [|destruct Hsingle as (s & _ & Hsingle)]; subst single;
          destruct (withCertainty b), (withDistance b), (targets b),
            (0 <? length (prepareTargetVectors b (targetVectors b)))%nat;
          simpl in Hc; set_unfold; destruct_or?; subst; done.
      * lia.
      * split; [done|]. intros Hnil. rewrite Hnil in Hsingle. subst single.
        destruct (withCertainty b), (withDistance b), (targets b),
          (0 <? length (prepareTargetVectors b (targetVectors b)))%nat;
          simpl in Hc; set_unfold; destruct_or?; subst; done.
      * destruct H as [_ Hne].
        destruct (vector b) as [|f rest]; [done|].
        destruct Hsingle as (s & _ & ->).
        exists ("vector: " +:+ s). split; [|by destruct s].
        destruct (withCertainty b), (withDistance b); set_solver.
  - intros Hsize Hnil. unfold build.
    rewrite build_clause_parts, Hsize, Hnil. simpl.
    eexists _, _. split; [reflexivity|]. split; [reflexivity|].
    intros c Hc.
    destruct (withCertainty b), (withDistance b), (targets b),
      (0 <? length (prepareTargetVectors b (targetVectors b)))%nat;
      simpl in Hc; set_unfold; destruct_or?; subst; done.
Qed.

(** C8: when both thresholds are set, the clause list of the built query
    starts with the [certainty:] clause and the [distance:] clause, each
    made from its own threshold alone; no other clause names either;
    setting other threshold values changes these two clauses and nothing
    else; and [build] returns such a query whenever the vectors it
    serialises are finite. *)
Theorem build_certainty_and_distance b :
  withCertainty b = true -> withDistance b = true ->
  (forall clause,
     build_clause' b = Returns clause ->
     exists rest,
       clause = ("certainty: " +:+ fmt_float32 (certainty b)) ::
                ("distance: " +:+ fmt_float32 (distance b)) :: rest /\
       build' b =
         Returns ("nearVector:{" +:+
                  String.concat " "
                    (("certainty: " +:+ fmt_float32 (certainty b)) ::
                     ("distance: " +:+ fmt_float32 (distance b)) :: rest)
                  +:+ "}") /\
       forall x, x ∈ rest ->
         String.prefix "certainty: " x = false /\
         String.prefix "distance: " x = false) /\
  (forall c d : float32,
     build_clause' (WithDistance d (WithCertainty c b)) =
     obind (build_clause' b)
       (fun clause =>
          Returns (("certainty: " +:+ fmt_float32 c) ::
                   ("distance: " +:+ fmt_float32 d) :: drop 2 clause))) /\
  ((forall k vs, vectorsPerTarget b !! k = Some vs ->
      existsb (existsb is_nan_or_inf) vs = false) ->
   existsb is_nan_or_inf (vector b) = false ->
   exists clause, build_clause' b = Returns clause).
Proof using map_range_perm.
  intros Hc Hd. split; [|split].
  - intros clause Hclause. unfold build. rewrite Hclause. simpl.
    assert (Hcases : (0 < size (vectorsPerTarget b))%nat
                     \/ size (vectorsPerTarget b) = 0%nat) by lia.
    destruct Hcases as [Hsize|Hsize].
    + destruct (build_clause_per_target b clause Hsize Hclause)
        as (entries & _ & ->).
      rewrite Hc, Hd. eexists. split; [reflexivity|]. split; [done|].
      intros x Hx.
      destruct (targets b),
        (0 <? length (prepareTargetVectors b (targetVectors b)))%nat;
        simpl in Hx; set_unfold; destruct_or?; subst; done.
    + destruct (build_clause_single b clause Hsize Hclause)
        as (single & Hsingle & ->).
      rewrite Hc, Hd. eexists. split; [reflexivity|]. split; [done|].
      intros x Hx.
      destruct (vector b) as [|f v];
        [|destruct Hsingle as (s & _ & Hsingle)]; subst single;
        destruct (targets b),
          (0 <? length (prepareTargetVectors b (targetVectors b)))%nat;
        simpl in Hx; set_unfold; destruct_or?; subst; done.
  - intros c d. rewrite !build_clause_parts. simpl.
    rewrite !prepareTargetVectors_flat_map. rewrite Hc, Hd.
    change (flat_map (emitted_for (WithDistance d (WithCertainty c b))))
      with (flat_map (emitted_for b)).
    destruct (0 <? size (vectorsPerTarget b))%nat;
      [destruct (marshal_targets' (map_range (vectorsPerTarget b)) [])|];
      simpl; try done;
      (destruct (negb (length (vector b) =? 0)
                 && (size (vectorsPerTarget b) =? 0))%nat;
       [destruct (json_Marshal_vector json_float32 (vector b))|];
       simpl; done).
  - apply build_clause_total.
Qed.

End Build.

(** *** [build] on concrete builders *)

Lemma sample_range_perm (m : gmap string (list (list float32))) :
  map_to_list m ≡ₚ map_to_list m.
Proof. reflexivity. Defined.


(** C3 fails as stated: with a NaN in the primary vector and a non-empty
    mapping, [build] returns a query; with an infinity in the primary
    vector alone, [build] panics with an error built by [fmt.Errorf]. *)
Lemma build_non_finite_counterexample :
  let b1 : NearVectorArgumentBuilder Empty_set :=
    WithVector [S754_nan]
      (WithVectorsPerTarget {[ "a" := [[Sample.one]] ]} new_builder) in
  let b2 : NearVectorArgumentBuilder Empty_set :=
    WithVector [S754_infinity false] new_builder in
  existsb is_nan_or_inf (vector b1) = true /\
  Sample.build_sample b1
  = Returns "nearVector:{vectorPerTarget: {a: [[8388608p-23]]}}" /\
  existsb is_nan_or_inf (vector b2) = true /\
  Sample.build_sample b2
  = Panics (PanicError
      "failed to unmarshal nearVector search vector: json: unsupported value: +Inf").
Proof. repeat split; vm_compute; reflexivity. Qed.

Lemma build_panics_on_serialised_non_finite_witness :
  let b : NearVectorArgumentBuilder Empty_set :=
    WithVector [Sample.one; S754_nan] new_builder in
  size (vectorsPerTarget b) = 0%nat /\
  existsb is_nan_or_inf (vector b) = true /\
  exists f, f ∈ vector b /\ is_nan_or_inf f = true /\
    Sample.build_sample b = Panics (PanicError
      ("failed to unmarshal nearVector search vector: " +:+
       unsupported_value f)).
Proof.
  intros b.
  assert (Hsize : size (vectorsPerTarget b) = 0%nat) by reflexivity.
  assert (Hbad : existsb is_nan_or_inf (vector b) = true) by reflexivity.
  split; [exact Hsize|]. split; [exact Hbad|].
  exact (proj1 (build_panics_on_serialised_non_finite
                  Sample.no_targets Sample.show_float Sample.show_float
                  Sample.show_strings map_to_list sample_range_perm b)
           Hsize Hbad).
Defined.

(** C4 fails as stated: the zero builder builds a clause with neither a
    [vector:] nor a [vectorPerTarget:] entry. *)
Lemma build_empty_counterexample :
  Sample.build_clause_sample new_builder = Returns [] /\
  Sample.build_sample new_builder = Returns "nearVector:{}".
Proof. split; vm_compute; reflexivity. Qed.

Lemma build_vector_entries_witness :
  let b : NearVectorArgumentBuilder Empty_set :=
    WithCertainty Sample.one new_builder in
  size (vectorsPerTarget b) = 0%nat /\ vector b = [] /\
  exists clause q,
    Sample.build_clause_sample b = Returns clause /\
    Sample.build_sample b = Returns q /\
    forall c, c ∈ clause ->
      String.prefix "vector: " c = false /\
      String.prefix "vectorPerTarget: " c = false.
Proof.
  intros b.
  assert (Hsize : size (vectorsPerTarget b) = 0%nat) by reflexivity.
  assert (Hnil : vector b = []) by reflexivity.
  split; [exact Hsize|]. split; [exact Hnil|].
  exact (proj2 (build_vector_entries
                  Sample.no_targets Sample.show_float Sample.show_float
                  Sample.show_strings map_to_list b)
           Hsize Hnil).
Defined.

Lemma build_certainty_and_distance_witness :
  let b : NearVectorArgumentBuilder Empty_set :=
    WithDistance Sample.one
      (WithCertainty Sample.one (WithVector [Sample.one] new_builder)) in
  withCertainty b = true /\ withDistance b = true /\
  Sample.build_clause_sample b
  = Returns ["certainty: 8388608p-23"; "distance: 8388608p-23";
             "vector: [8388608p-23]"] /\
  exists rest,
    ["certainty: 8388608p-23"; "distance: 8388608p-23";
     "vector: [8388608p-23]"]
    = ("certainty: " +:+ Sample.show_float (certainty b)) ::
      ("distance: " +:+ Sample.show_float (distance b)) :: rest /\
    Sample.build_sample b =
      Returns ("nearVector:{" +:+
               String.concat " "
                 (("certainty: " +:+ Sample.show_float (certainty b)) ::
                  ("distance: " +:+ Sample.show_float (distance b)) :: rest)
               +:+ "}") /\
    forall x, x ∈ rest ->
      String.prefix "certainty: " x = false /\
      String.prefix "distance: " x = false.
Proof.
  intros b.
  assert (Hc : withCertainty b = true) by reflexivity.
  assert (Hd : withDistance b = true) by reflexivity.
  assert (Hclause : Sample.build_clause_sample b
            = Returns ["certainty: 8388608p-23"; "distance: 8388608p-23";
                       "vector: [8388608p-23]"])
    by (vm_compute; reflexivity).
  split; [exact Hc|]. split; [exact Hd|]. split; [exact Hclause|].
  exact (proj1 (build_certainty_and_distance
                  Sample.no_targets Sample.show_float Sample.show_float
                  Sample.show_strings map_to_list sample_range_perm b Hc Hd)
           _ Hclause).
Defined.

(** ** The orchestrator *)

Lemma string_app_assoc (s1 s2 s3 : string) :
  (s1 +:+ s2) +:+ s3 = s1 +:+ (s2 +:+ s3).
Proof.
  induction s1 as [|a s1 IH]; [reflexivity|].
  change (String a ((s1 +:+ s2) +:+ s3) = String a (s1 +:+ (s2 +:+ s3))).
  by rewrite IH.
Qed.

Lemma string_app_nil_r (s : string) : s +:+ "" = s.
Proof.
  induction s as [|a s IH]; [reflexivity|].
  change (String a (s +:+ "") = String a s). by rewrite IH.
Qed.

Lemma lines_app (xs ys : list string) :
  lines (xs ++ ys) = lines xs +:+ lines ys.
Proof.
  induction xs as [|x xs IH]; simpl; [reflexivity|].
  by rewrite IH, !string_app_assoc.
Qed.

(** The three apologies differ from one another. *)
Lemma apologies_distinct :
  embedding_apology <> retrieval_apology /\
  embedding_apology <> generation_apology /\
  retrieval_apology <> generation_apology.
Proof. repeat split; intros H; vm_compute in H; discriminate H. Qed.

Lemma weaviate_context_loop_lines (documents : list Weaviate.iface)
    (context : string) :
  Weaviate.context_loop documents context
  = context +:+ lines (omap Weaviate.document_text documents).
Proof.
  revert context.
  induction documents as [|doc rest IH]; intros context; simpl.
  - by rewrite string_app_nil_r.
  - destruct doc as [| | | | |item]; simpl; try apply IH.
    destruct (item !! "text") as [[| | |text| |]|]; simpl; try apply IH.
    rewrite IH. by rewrite !string_app_assoc.
Qed.

Lemma qdrant_context_loop_lines (points : list Qdrant.ScoredPoint)
    (context : string) :
  Qdrant.context_loop points context
  = context +:+
    lines (map (fun point =>
                  Qdrant.GetStringValue (Qdrant.Payload point !! "text"))
               points).
Proof.
  revert context.
  induction points as [|point rest IH]; intros context; simpl.
  - by rewrite string_app_nil_r.
  - rewrite IH. by rewrite !string_app_assoc.
Qed.

Lemma omap_document_text (documents : list Weaviate.iface)
    (texts : list string) :
  Forall2 (fun doc text => Weaviate.document_text doc = Some text)
          documents texts ->
  omap Weaviate.document_text documents = texts.
Proof.
  induction 1 as [|doc text documents texts Hdoc _ IH]; simpl; [done|].
  rewrite Hdoc. simpl. f_equal. exact IH.
Qed.

(** C7: the context is the fixed header followed by the text of each
    result, each on a line of its own, in the order the results came in
    (both variants); it is a function of the result list alone. *)
Theorem assemble_context_ordered :
  (forall (result : Weaviate.GraphQLResponse)
          (data : gmap string Weaviate.iface)
          (documents : list Weaviate.iface),
     Weaviate.Data result !! "Get" = Some (Weaviate.IMap data) ->
     data !! Weaviate.className = Some (Weaviate.ISlice documents) ->
     Weaviate.assemble_context result
     = context_header +:+ lines (omap Weaviate.document_text documents) /\
     forall texts : list string,
       Forall2 (fun doc text => Weaviate.document_text doc = Some text)
               documents texts ->
       Weaviate.assemble_context result = context_header +:+ lines texts) /\
  (forall points : list Qdrant.ScoredPoint,
     Qdrant.assemble_context points
     = context_header +:+
       lines (map (fun point =>
                     Qdrant.GetStringValue (Qdrant.Payload point !! "text"))
                  points)).
Proof.
  split.
  - intros result data documents Hget Hdocs.
    assert (Hctx : Weaviate.assemble_context result
              = context_header +:+
                lines (omap Weaviate.document_text documents)).
    { unfold Weaviate.assemble_context. rewrite Hget, Hdocs.
      apply weaviate_context_loop_lines. }
    split; [exact Hctx|].
    intros texts Htexts. by rewrite Hctx, (omap_document_text _ _ Htexts).
  - intros points. apply qdrant_context_loop_lines.
Qed.

Lemma assemble_context_ordered_witness :
  let documents :=
    [Weaviate.IMap {[ "text" := Weaviate.IString "first" ]};
     Weaviate.IMap {[ "text" := Weaviate.IString "second" ]}] in
  let data : gmap string Weaviate.iface :=
    {[ "Sbb" := Weaviate.ISlice documents ]} in
  let result := {| Weaviate.Data := {[ "Get" := Weaviate.IMap data ]} |} in
  Weaviate.Data result !! "Get" = Some (Weaviate.IMap data) /\
  data !! Weaviate.className = Some (Weaviate.ISlice documents) /\
  Forall2 (fun doc text => Weaviate.document_text doc = Some text)
          documents ["first"; "second"] /\
  Weaviate.assemble_context result
  = context_header +:+ lines ["first"; "second"].
Proof.
  intros documents data result.
  assert (Hget : Weaviate.Data result !! "Get" = Some (Weaviate.IMap data))
    by reflexivity.
  assert (Hdocs : data !! Weaviate.className = Some (Weaviate.ISlice documents))
    by reflexivity.
  assert (Htexts : Forall2 (fun doc text => Weaviate.document_text doc = Some text)
                     documents ["first"; "second"])
    by (repeat constructor).
  split; [exact Hget|]. split; [exact Hdocs|]. split; [exact Htexts|].
  exact (proj2 (proj1 assemble_context_ordered result data documents Hget Hdocs)
           ["first"; "second"] Htexts).
Defined.

Section Orchestrator.
Context {MultiTargetArgumentBuilder : Type}.
Implicit Types (ollamaClient : OllamaClient)
  (weaviateClient : Weaviate.Client MultiTargetArgumentBuilder)
  (qdrantClient : Qdrant.PointsClient).

Lemma weaviate_processQuery_retrieved ollamaClient weaviateClient query
    embedding result :
  Embeddings ollamaClient ollamaModel query = inl embedding ->
  Weaviate.Get_Do weaviateClient Weaviate.className ["text"]
    (WithVector (convertToFloat32 embedding) new_builder) 3 = inl result ->
  (Weaviate.processQuery ollamaClient weaviateClient query).1
  = after_retrieval ollamaClient (Weaviate.assemble_context result) query.
Proof.
  intros Hembed Hsearch. unfold Weaviate.processQuery, after_retrieval.
  rewrite Hembed, Hsearch.
  by destruct (Generate ollamaClient ollamaModel _) as [chunks [err|]].
Qed.

Lemma qdrant_processQuery_retrieved ollamaClient qdrantClient query
    embedding searchResp :
  Embeddings ollamaClient ollamaModel query = inl embedding ->
  Qdrant.Points_Search qdrantClient Qdrant.collectionName
    (convertToFloat32 embedding) 3 true = inl searchResp ->
  (Qdrant.processQuery ollamaClient qdrantClient query).1
  = after_retrieval ollamaClient (Qdrant.assemble_context searchResp) query.
Proof.
  intros Hembed Hsearch. unfold Qdrant.processQuery, after_retrieval.
  rewrite Hembed, Hsearch.
  by destruct (Generate ollamaClient ollamaModel _) as [chunks [err|]].
Qed.

(** C6, as the code has it: a result whose text payload is missing does
    not make retrieval fail.  The Weaviate variant leaves the result
    out of the context, the Qdrant variant gives it an empty line, and
    in both [processQuery] goes on to generation, whose outcome alone
    decides what is returned. *)
Theorem missing_text_is_not_a_failure ollamaClient weaviateClient
    qdrantClient (query : string) (embedding : list float64) :
  Embeddings ollamaClient ollamaModel query = inl embedding ->
  (forall result data before doc after,
     Weaviate.Get_Do weaviateClient Weaviate.className ["text"]
       (WithVector (convertToFloat32 embedding) new_builder) 3
     = inl result ->
     Weaviate.Data result !! "Get" = Some (Weaviate.IMap data) ->
     data !! Weaviate.className
     = Some (Weaviate.ISlice (before ++ doc :: after)) ->
     Weaviate.document_text doc = None ->
     Weaviate.assemble_context result
     = context_header +:+
       lines (omap Weaviate.document_text (before ++ after)) /\
     (Weaviate.processQuery ollamaClient weaviateClient query).1
     = after_retrieval ollamaClient
         (Weaviate.assemble_context result) query) /\
  (forall before point after,
     Qdrant.Points_Search qdrantClient Qdrant.collectionName
       (convertToFloat32 embedding) 3 true
     = inl (before ++ point :: after) ->
     (forall s, Qdrant.Payload point !! "text"
                <> Some (Qdrant.Value_StringValue s)) ->
     Qdrant.assemble_context (before ++ point :: after)
     = Qdrant.assemble_context before +:+ nl +:+
       lines (map (fun p =>
                     Qdrant.GetStringValue (Qdrant.Payload p !! "text"))
                  after) /\
     (Qdrant.processQuery ollamaClient qdrantClient query).1
     = after_retrieval ollamaClient
         (Qdrant.assemble_context (before ++ point :: after)) query).
Proof.
  intros Hembed. split.
  - intros result data before doc after Hsearch Hget Hdocs Hmissing.
    split; [|by apply (weaviate_processQuery_retrieved _ _ _ embedding)].
    unfold Weaviate.assemble_context.
    rewrite Hget, Hdocs, weaviate_context_loop_lines.
    rewrite !omap_app. simpl. by rewrite Hmissing.
  - intros before point after Hsearch Hmissing.
    split; [|by apply (qdrant_processQuery_retrieved _ _ _ embedding)].
    unfold Qdrant.assemble_context.
    rewrite !qdrant_context_loop_lines, map_app, lines_app. simpl.
    assert (Hempty : Qdrant.GetStringValue (Qdrant.Payload point !! "text")
                     = "").
    { unfold Qdrant.GetStringValue.
      destruct (Qdrant.Payload point !! "text") as [[| | |s| | |]|];
        try reflexivity.
      by destruct (Hmissing s). }
    rewrite Hempty. by rewrite !string_app_assoc.
Qed.

End Orchestrator.

(** *** [processQuery] with concrete collaborators *)

(** C6 fails as stated: the first hit of each response has no text, yet
    [processQuery] returns the generated answer; the Weaviate variant
    leaves the hit out of the context and the Qdrant variant gives it an
    empty line. *)
Lemma missing_text_counterexample :
  Weaviate.document_text (Weaviate.IMap ∅) = None /\
  Weaviate.assemble_context Sample.weaviate_response
  = context_header +:+ "kept" +:+ nl /\
  (Weaviate.processQuery Sample.ollama_ok Sample.weaviate_ok "q").1
  = "answer" /\
  Qdrant.assemble_context Sample.qdrant_points
  = context_header +:+ nl +:+ "kept" +:+ nl /\
  (Qdrant.processQuery Sample.ollama_ok Sample.qdrant_ok "q").1 = "answer" /\
  "answer" <> retrieval_apology.
Proof.
  repeat split; try (vm_compute; reflexivity).
  intros H. vm_compute in H. discriminate H.
Qed.

Lemma missing_text_is_not_a_failure_witness :
  Embeddings Sample.ollama_ok ollamaModel "q" = inl [S754_finite false 3 0] /\
  (forall s, (∅ : gmap string Qdrant.Value) !! "text"
             <> Some (Qdrant.Value_StringValue s)) /\
  Qdrant.assemble_context Sample.qdrant_points
  = Qdrant.assemble_context [] +:+ nl +:+ lines ["kept"] /\
  (Qdrant.processQuery Sample.ollama_ok Sample.qdrant_ok "q").1
  = after_retrieval Sample.ollama_ok
      (Qdrant.assemble_context Sample.qdrant_points) "q".
Proof.
  assert (Hembed : Embeddings Sample.ollama_ok ollamaModel "q"
                   = inl [S754_finite false 3 0]) by reflexivity.
  assert (Hmissing : forall s, (∅ : gmap string Qdrant.Value) !! "text"
                               <> Some (Qdrant.Value_StringValue s))
    by (intros s H; discriminate H).
  split; [exact Hembed|]. split; [exact Hmissing|].
  exact (proj2 (missing_text_is_not_a_failure
                  Sample.ollama_ok Sample.weaviate_ok Sample.qdrant_ok "q"
                  [S754_finite false 3 0] Hembed)
           [] {| Qdrant.Score := Sample.one; Qdrant.Payload := ∅ |}
           [ {| Qdrant.Score := Sample.one;
                Qdrant.Payload :=
                  {[ "text" := Qdrant.Value_StringValue "kept" ]} |} ]
           eq_refl Hmissing).
Defined.

(** * Further properties of the builder *)

Section TargetNames.
Context {MultiTargetArgumentBuilder : Type}.
Implicit Types b : NearVectorArgumentBuilder MultiTargetArgumentBuilder.

(** X1: when every target of the mapping has exactly one vector, and so
    in particular when the mapping is empty, [prepareTargetVectors] returns
    the declared names as they are. *)
Theorem prepareTargetVectors_one_vector_each b (declared : list string) :
  (forall t vectors,
     vectorsPerTarget b !! t = Some vectors -> length vectors = 1%nat) ->
  prepareTargetVectors b declared = declared.
Proof.
  intros Hone. rewrite prepareTargetVectors_flat_map.
  induction declared as [|t rest IH]; simpl; [done|].
  rewrite IH. unfold emitted_for.
  destruct (vectorsPerTarget b !! t) as [vectors|] eqn:Ht; [|done].
  by rewrite (Hone t vectors Ht).
Qed.

(** X2: [WithVectorPerTarget] with a non-empty argument stores each vector
    as a one-element list, and the declared names then go out unchanged:
    one name per target. *)
Theorem WithVectorPerTarget_wraps b (vectorPerTarget : gmap string (list float32))
    (declared : list string) :
  (0 < size vectorPerTarget)%nat ->
  (forall t,
     vectorsPerTarget (WithVectorPerTarget vectorPerTarget b) !! t
     = (fun v => [v]) <$> vectorPerTarget !! t) /\
  prepareTargetVectors (WithVectorPerTarget vectorPerTarget b) declared
  = declared.
Proof.
  intros Hsize%Nat.ltb_lt.
  assert (Hlookup : forall t,
            vectorsPerTarget (WithVectorPerTarget vectorPerTarget b) !! t
            = (fun v => [v]) <$> vectorPerTarget !! t).
  { intros t. unfold WithVectorPerTarget. rewrite Hsize. simpl.
    apply lookup_fmap. }
  split; [exact Hlookup|].
  apply prepareTargetVectors_one_vector_each.
  intros t vectors. rewrite Hlookup.
  destruct (vectorPerTarget !! t); simpl; [|done]. by intros [= <-].
Qed.

Lemma length_emitted_for b (t : string) :
  length (emitted_for b t)
  = match vectorsPerTarget b !! t with
    | Some vectors => length vectors
    | None => 1%nat
    end.
Proof.
  unfold emitted_for. destruct (vectorsPerTarget b !! t); [|done].
  apply length_replicate.
Qed.

(** X3: the list [prepareTargetVectors] returns has one entry per vector
    of each declared target, plus one per declared target without an
    entry in the mapping; it is empty exactly when every declared target
    is mapped to no vector at all. *)
Theorem prepareTargetVectors_length b (declared : list string) :
  length (prepareTargetVectors b declared)
  = sum_list (map (fun t => match vectorsPerTarget b !! t with
                            | Some vectors => length vectors
                            | None => 1%nat
                            end) declared) /\
  (prepareTargetVectors b declared = [] <->
   Forall (fun t => vectorsPerTarget b !! t = Some []) declared).
Proof.
  rewrite prepareTargetVectors_flat_map. split.
  - induction declared as [|t rest IH]; simpl; [done|].
    by rewrite length_app, IH, length_emitted_for.
  - induction declared as [|t rest IH]; simpl.
    + split; [constructor|done].
    + split.
      * intros [Ht Hrest]%app_eq_nil. constructor; [|by apply IH].
        unfold emitted_for in Ht.
        destruct (vectorsPerTarget b !! t) as [[|v vs]|]; by try done.
      * intros [Ht Hrest]%Forall_cons.
        rewrite (proj2 IH Hrest), app_nil_r.
        unfold emitted_for. by rewrite Ht.
Qed.

(** X4: [prepareTargetVectors] works name by name: the result for two
    declared lists put end to end is the two results put end to end. *)
Theorem prepareTargetVectors_app b (declared1 declared2 : list string) :
  prepareTargetVectors b (declared1 ++ declared2)
  = prepareTargetVectors b declared1 ++ prepareTargetVectors b declared2.
Proof. rewrite !prepareTargetVectors_flat_map. apply flat_map_app. Qed.

(** X5: the two setters of the mapping write the same field, so the later
    call with a non-empty argument decides, whichever setter it is; a call
    with an empty argument changes nothing. *)
Theorem vectorsPerTarget_last_setter_wins b
    (single : gmap string (list float32))
    (many : gmap string (list (list float32))) :
  ((0 < size single)%nat ->
   WithVectorPerTarget single (WithVectorsPerTarget many b)
   = WithVectorPerTarget single b) /\
  ((0 < size many)%nat ->
   WithVectorsPerTarget many (WithVectorPerTarget single b)
   = WithVectorsPerTarget many b) /\
  WithVectorPerTarget ∅ b = b /\
  WithVectorsPerTarget ∅ b = b.
Proof.
  split; [|split; [|split]].
  - intros Hs%Nat.ltb_lt. unfold WithVectorPerTarget. rewrite Hs.
    unfold WithVectorsPerTarget. by destruct (0 <? size many)%nat.
  - intros Hm%Nat.ltb_lt. unfold WithVectorsPerTarget. rewrite Hm.
    unfold WithVectorPerTarget. by destruct (0 <? size single)%nat.
  - reflexivity.
  - reflexivity.
Qed.

End TargetNames.

Lemma prepareTargetVectors_one_vector_each_witness :
  let b : NearVectorArgumentBuilder Empty_set := new_builder in
  (forall t vectors,
     vectorsPerTarget b !! t = Some vectors -> length vectors = 1%nat) /\
  prepareTargetVectors b ["v1"; "v2"; "v1"] = ["v1"; "v2"; "v1"].
Proof.
  intros b.
  assert (Hone : forall t vectors,
            vectorsPerTarget b !! t = Some vectors -> length vectors = 1%nat)
    by (intros t vectors H; discriminate H).
  split; [exact Hone|].
  exact (prepareTargetVectors_one_vector_each b ["v1"; "v2"; "v1"] Hone).
Defined.

Lemma WithVectorPerTarget_wraps_witness :
  let m : gmap string (list float32) := {[ "v1" := [Sample.one] ]} in
  (0 < size m)%nat /\
  prepareTargetVectors
    (WithVectorPerTarget m (new_builder : NearVectorArgumentBuilder Empty_set))
    ["v1"; "v2"]
  = ["v1"; "v2"].
Proof.
  intros m.
  assert (Hsize : (0 < size m)%nat) by (apply Nat.ltb_lt; vm_compute; reflexivity).
  split; [exact Hsize|].
  exact (proj2 (WithVectorPerTarget_wraps new_builder m ["v1"; "v2"] Hsize)).
Defined.

Lemma vectorsPerTarget_last_setter_wins_witness :
  let single : gmap string (list float32) := {[ "v1" := [Sample.one] ]} in
  let many : gmap string (list (list float32)) :=
    {[ "v2" := [[Sample.one]; [Sample.one]] ]} in
  let b : NearVectorArgumentBuilder Empty_set := new_builder in
  (0 < size single)%nat /\
  WithVectorPerTarget single (WithVectorsPerTarget many b)
  = WithVectorPerTarget single b.
Proof.
  intros single many b.
  assert (Hsize : (0 < size single)%nat)
    by (apply Nat.ltb_lt; vm_compute; reflexivity).
  split; [exact Hsize|].
  exact (proj1 (vectorsPerTarget_last_setter_wins b single many) Hsize).
Defined.

Lemma prefix_app (p s : string) : String.prefix p (p +:+ s) = true.
Proof.
  induction p as [|a p IH]; [by destruct s|].
  change (String.prefix (String a p) (String a (p +:+ s)) = true).
  simpl. by destruct (ascii_dec a a).
Qed.

Lemma to_float32_non_finite (v : float64) :
  is_nan_or_inf v = true -> to_float32 v = v.
Proof. by destruct v. Qed.

Lemma existsb_convertToFloat32 (embedding : list float64) :
  existsb is_nan_or_inf embedding = true ->
  existsb is_nan_or_inf (convertToFloat32 embedding) = true.
Proof.
  rewrite convertToFloat32_map.
  induction embedding as [|v rest IH]; simpl; [done|].
  destruct (is_nan_or_inf v) eqn:Hv; simpl.
  - intros _. by rewrite (to_float32_non_finite v Hv), Hv.
  - intros H. rewrite (IH H). apply orb_true_r.
Qed.

Section BuildMore.
Context {MultiTargetArgumentBuilder : Type}.
Variable targets_build : MultiTargetArgumentBuilder -> string.
Variable fmt_float32 : float32 -> string.
Variable json_float32 : float32 -> string.
Variable json_Marshal_strings : list string -> string.
Variable map_range :
  gmap string (list (list float32)) -> list (string * list (list float32)).
Hypothesis map_range_perm : forall m, map_range m ≡ₚ map_to_list m.

Implicit Types b : NearVectorArgumentBuilder MultiTargetArgumentBuilder.

Local Abbreviation build_clause' :=
  (build_clause targets_build fmt_float32 json_float32
     json_Marshal_strings map_range).
Local Abbreviation build' :=
  (build targets_build fmt_float32 json_float32
     json_Marshal_strings map_range).

Lemma build_panics_primary b :
  size (vectorsPerTarget b) = 0%nat ->
  existsb is_nan_or_inf (vector b) = true ->
  exists f, f ∈ vector b /\ is_nan_or_inf f = true /\
    build' b = Panics (PanicError
      ("failed to unmarshal nearVector search vector: " +:+
       unsupported_value f)).
Proof.
  intros Hsize Hbad.
  destruct (json_Marshal_vector_fail json_float32 _ Hbad)
    as (f & Hin & Hf & Herr).
  exists f. split; [done|]. split; [done|].
  unfold build. rewrite build_clause_parts, Hsize, Herr. simpl.
  destruct (vector b); [by apply elem_of_nil in Hin|done].
Qed.

Lemma build_panics_mapped b k vs :
  vectorsPerTarget b !! k = Some vs ->
  existsb (existsb is_nan_or_inf) vs = true ->
  exists p, build' b = Panics p.
Proof using map_range_perm.
  intros Hk Hbad.
  assert (Hsize : (0 < size (vectorsPerTarget b))%nat).
  { destruct (size (vectorsPerTarget b)) eqn:Hz; [|lia].
    apply map_size_empty_iff in Hz. rewrite Hz in Hk.
    by rewrite lookup_empty in Hk. }
  destruct (marshal_targets_panics json_float32
              (map_range (vectorsPerTarget b)) [])
    as (kv & v & f & _ & _ & _ & _ & Hp).
  { apply Exists_exists. exists (k, vs). split; [|done].
    rewrite (map_range_perm (vectorsPerTarget b)).
    by apply elem_of_map_to_list. }
  eexists. unfold build. rewrite build_clause_parts, Hp.
  by destruct (size_zero_eqb _ Hsize) as [-> _].
Qed.

(** X6: [build] returns a query exactly when every vector it serialises
    is free of NaN and infinities: all vectors of the mapping, and the
    primary vector when the mapping is empty.  Otherwise it panics. *)
Theorem build_returns_iff b :
  (exists q, build' b = Returns q) <->
  (forall k vs, vectorsPerTarget b !! k = Some vs ->
     existsb (existsb is_nan_or_inf) vs = false) /\
  (size (vectorsPerTarget b) = 0%nat ->
   existsb is_nan_or_inf (vector b) = false).
Proof using map_range_perm.
  split.
  - intros [q Hq]. split.
    + intros k vs Hk.
      destruct (existsb (existsb is_nan_or_inf) vs) eqn:Hbad; [|done].
      destruct (build_panics_mapped b k vs Hk Hbad) as [p Hp]. congruence.
    + intros Hsize.
      destruct (existsb is_nan_or_inf (vector b)) eqn:Hbad; [|done].
      destruct (build_panics_primary b Hsize Hbad) as (f & _ & _ & Hp).
      congruence.
  - intros [Hmap Hvec]. unfold build. rewrite build_clause_parts.
    destruct (marshal_targets_total json_float32
                (map_range (vectorsPerTarget b)) []) as [entries ->].
    { rewrite (map_range_perm (vectorsPerTarget b)).
      apply Forall_forall. intros [k vs] Hin.
      apply elem_of_map_to_list in Hin. by apply (Hmap k vs). }
    destruct (size (vectorsPerTarget b)) as [|n] eqn:Hsize; simpl.
    + rewrite andb_true_r.
      rewrite (json_Marshal_vector_ok json_float32 _ (Hvec eq_refl)).
      destruct (negb (length (vector b) =? 0)%nat); simpl; by eexists.
    + rewrite andb_false_r. simpl. by eexists.
Qed.

(** X7: the clause list has a [targets:] clause exactly when [WithTargets]
    stored a builder, and a [targetVectors:] clause exactly when the
    prepared name list is non-empty; neither suppresses the other. *)
Theorem build_targets_and_targetVectors b (clause : list string) :
  build_clause targets_build fmt_float32 json_float32
    json_Marshal_strings map_range b = Returns clause ->
  ((exists c, c ∈ clause /\ String.prefix "targets: " c = true)
   <-> targets b <> None) /\
  ((exists c, c ∈ clause /\ String.prefix "targetVectors: " c = true)
   <-> prepareTargetVectors b (targetVectors b) <> []).
Proof.
  clear map_range_perm.
  intros Hclause.
  assert (Hshape : exists middle,
    (forall c, c ∈ middle ->
       String.prefix "targets: " c = false /\
       String.prefix "targetVectors: " c = false) /\
    clause = middle ++
      match targets b with
      | Some t => ["targets: {" +:+ targets_build t +:+ "}"]
      | None => []
      end ++
      (if (0 <? length (prepareTargetVectors b (targetVectors b)))%nat
       then ["targetVectors: " +:+
               json_Marshal_strings (prepareTargetVectors b (targetVectors b))]
       else [])).
  { assert (Hcases : (0 < size (vectorsPerTarget b))%nat
                     \/ size (vectorsPerTarget b) = 0%nat) by lia.
    destruct Hcases as [Hsize|Hsize].
    - destruct (build_clause_per_target _ _ _ _ _ b clause Hsize Hclause)
        as (entries & _ & ->).
      eexists. split; [|by rewrite !app_assoc].
      intros c Hc.
      destruct (withCertainty b), (withDistance b);
        simpl in Hc; set_unfold; destruct_or?; subst; done.
    - destruct (build_clause_single _ _ _ _ _ b clause Hsize Hclause)
        as (single & Hsingle & ->).
      eexists. split; [|by rewrite !app_assoc].
      intros c Hc.
      destruct (vector b) as [|f v];
        [|destruct Hsingle as (s & _ & Hsingle)]; subst single;
        destruct (withCertainty b), (withDistance b);
        simpl in Hc; set_unfold; destruct_or?; subst; done. }
  destruct Hshape as (middle & Hmiddle & ->).
  set (prepared := prepareTargetVectors b (targetVectors b)).
  assert (Hlen : (0 <? length prepared)%nat = true <-> prepared <> []).
  { destruct prepared; simpl; split; done. }
  split; split.
  - intros (c & Hc & Hp) Hnone. rewrite Hnone in Hc.
    rewrite app_nil_l in Hc. apply elem_of_app in Hc as [Hc|Hc].
    + pose proof (Hmiddle c Hc) as [H1 _]. congruence.
    + destruct (0 <? length prepared)%nat; [|by apply elem_of_nil in Hc].
      apply list_elem_of_singleton in Hc. subst c. done.
  - intros Hsome. destruct (targets b) as [t|]; [|done].
    exists ("targets: {" +:+ targets_build t +:+ "}").
    split; [|done].
    rewrite !elem_of_app. right. left. by apply list_elem_of_singleton.
  - intros (c & Hc & Hp) Hnil. rewrite Hnil in Hc. simpl in Hc.
    rewrite app_nil_r in Hc. apply elem_of_app in Hc as [Hc|Hc].
    + pose proof (Hmiddle c Hc) as [_ H2]. congruence.
    + destruct (targets b); [|by apply elem_of_nil in Hc].
      apply list_elem_of_singleton in Hc. subst c. done.
  - intros Hne. apply Hlen in Hne. rewrite Hne.
    exists ("targetVectors: " +:+ json_Marshal_strings prepared).
    split; [|apply prefix_app].
    rewrite !elem_of_app. right. right. by apply list_elem_of_singleton.
Qed.

(** X8: the builder [processQuery] makes, [WithVector v] on the zero
    builder, builds [nearVector:{vector: [f1,...,fn]}] for a finite
    non-empty [v], and [nearVector:{}] for the empty vector. *)
Theorem build_single_vector (v : list float32) :
  existsb is_nan_or_inf v = false ->
  build targets_build fmt_float32 json_float32 json_Marshal_strings map_range
    (WithVector v new_builder)
  = Returns
      match v with
      | [] => "nearVector:{}"
      | _ :: _ =>
          "nearVector:{vector: [" +:+
          String.concat "," (map json_float32 v) +:+ "]}"
      end.
Proof.
  clear map_range_perm.
  intros Hfinite. unfold build. rewrite build_clause_parts. simpl.
  rewrite map_size_empty. simpl.
  destruct v as [|f v]; [reflexivity|].
  rewrite (json_Marshal_vector_ok json_float32 _ Hfinite). simpl.
  f_equal. rewrite !string_app_assoc. reflexivity.
Qed.

(** X9: a NaN or an infinity in an embedding is still there after
    [convertToFloat32], and building the query for the converted vector
    panics instead of returning. *)
Theorem build_of_non_finite_embedding (embedding : list float64) :
  existsb is_nan_or_inf embedding = true ->
  existsb is_nan_or_inf (convertToFloat32 embedding) = true /\
  exists f, f ∈ convertToFloat32 embedding /\ is_nan_or_inf f = true /\
    build targets_build fmt_float32 json_float32 json_Marshal_strings
      map_range (WithVector (convertToFloat32 embedding) new_builder)
    = Panics (PanicError
        ("failed to unmarshal nearVector search vector: " +:+
         unsupported_value f)).
Proof.
  clear map_range_perm.
  intros Hbad%existsb_convertToFloat32. split; [exact Hbad|].
  apply (build_panics_primary
           (WithVector (convertToFloat32 embedding) new_builder)).
  - simpl. apply map_size_empty.
  - exact Hbad.
Qed.

End BuildMore.

Lemma build_returns_iff_witness :
  let b : NearVectorArgumentBuilder Empty_set :=
    WithVector [Sample.one] new_builder in
  (forall k vs, vectorsPerTarget b !! k = Some vs ->
     existsb (existsb is_nan_or_inf) vs = false) /\
  (size (vectorsPerTarget b) = 0%nat ->
   existsb is_nan_or_inf (vector b) = false) /\
  exists q, Sample.build_sample b = Returns q.
Proof.
  intros b.
  assert (Hmap : forall k vs, vectorsPerTarget b !! k = Some vs ->
                   existsb (existsb is_nan_or_inf) vs = false)
    by (intros k vs H; discriminate H).
  assert (Hvec : size (vectorsPerTarget b) = 0%nat ->
                 existsb is_nan_or_inf (vector b) = false)
    by (intros _; reflexivity).
  split; [exact Hmap|]. split; [exact Hvec|].
  exact (proj2 (build_returns_iff
                  Sample.no_targets Sample.show_float Sample.show_float
                  Sample.show_strings map_to_list sample_range_perm b)
           (conj Hmap Hvec)).
Defined.

Lemma build_targets_and_targetVectors_witness :
  let b : NearVectorArgumentBuilder Empty_set :=
    WithTargetVectors ["v1"] (WithVector [Sample.one] new_builder) in
  let clause :=
    ["vector: [8388608p-23]";
     "targetVectors: " +:+ Sample.show_strings ["v1"]] in
  Sample.build_clause_sample b = Returns clause /\
  ((exists c, c ∈ clause /\ String.prefix "targetVectors: " c = true)
   <-> prepareTargetVectors b (targetVectors b) <> []).
Proof.
  intros b clause.
  assert (Hclause : Sample.build_clause_sample b = Returns clause)
    by (vm_compute; reflexivity).
  split; [exact Hclause|].
  exact (proj2 (build_targets_and_targetVectors
                  Sample.no_targets Sample.show_float Sample.show_float
                  Sample.show_strings map_to_list b clause Hclause)).
Defined.

Lemma build_single_vector_witness :
  existsb is_nan_or_inf [Sample.one; Sample.one] = false /\
  Sample.build_sample (WithVector [Sample.one; Sample.one] new_builder)
  = Returns "nearVector:{vector: [8388608p-23,8388608p-23]}".
Proof.
  assert (Hfinite : existsb is_nan_or_inf [Sample.one; Sample.one] = false)
    by reflexivity.
  split; [exact Hfinite|].
  exact (build_single_vector
           Sample.no_targets Sample.show_float Sample.show_float
           Sample.show_strings map_to_list [Sample.one; Sample.one] Hfinite).
Defined.

Lemma build_of_non_finite_embedding_witness :
  let embedding := [S754_finite false 3 0; S754_infinity true] in
  existsb is_nan_or_inf embedding = true /\
  existsb is_nan_or_inf (convertToFloat32 embedding) = true.
Proof.
  intros embedding.
  assert (Hbad : existsb is_nan_or_inf embedding = true) by reflexivity.
  split; [exact Hbad|].
  exact (proj1 (build_of_non_finite_embedding
                  Sample.no_targets Sample.show_float Sample.show_float
                  Sample.show_strings map_to_list embedding Hbad)).
Defined.

(** * Further properties of indexing and of the orchestrators *)

(** ** [indexDocuments] *)

Arguments calls {Request} trace : simpl never.
Arguments logged {Request} trace : simpl never.

Lemma calls_cons {Request : Type} (s : step Request) (trace : list (step Request)) :
  calls (s :: trace)
  = match s with
    | Called request => request :: calls trace
    | Logged _ => calls trace
    end.
Proof. by destruct s. Qed.

Lemma logged_cons {Request : Type} (s : step Request) (trace : list (step Request)) :
  logged (s :: trace)
  = match s with
    | Called _ => logged trace
    | Logged msg => msg :: logged trace
    end.
Proof. by destruct s. Qed.

(** X10: the requests [indexDocuments] sends to Weaviate are, in document
    order, one per document whose embedding succeeded, with class [Sbb],
    the document as its [text] and the converted embedding as vector; a
    failed embedding or a failed insert stops nothing, and what the store
    answers has no influence on what is sent. *)
Theorem weaviate_indexDocuments_calls (ollamaClient : OllamaClient)
    (weaviateClient : WeaviateData.Creator) (documents : list string) :
  calls (WeaviateData.indexDocuments ollamaClient weaviateClient documents)
  = omap (fun doc =>
            match Embeddings ollamaClient ollamaModel doc with
            | inl embedding =>
                Some {| WeaviateData.create_class := "Sbb";
                        WeaviateData.create_properties :=
                          {[ "text" := Weaviate.IString doc ]};
                        WeaviateData.create_vector :=
                          convertToFloat32 embedding |}
            | inr _ => None
            end) documents.
Proof.
  induction documents as [|doc rest IH]; simpl; [done|].
  destruct (Embeddings ollamaClient ollamaModel doc) as [embedding|err];
    simpl.
  - destruct (WeaviateData.Creator_Do weaviateClient _);
      rewrite ?calls_cons; simpl; by rewrite IH.
  - by rewrite calls_cons.
Qed.

(** X11: every document is accounted for: it is either sent to the store
    or logged as not embedded; and a line is logged for each failed
    embedding and each failed insert, and for nothing else. *)
Theorem weaviate_indexDocuments_accounting (ollamaClient : OllamaClient)
    (weaviateClient : WeaviateData.Creator) (documents : list string) :
  let trace :=
    WeaviateData.indexDocuments ollamaClient weaviateClient documents in
  let not_embedded :=
    List.filter
      (fun doc =>
         match Embeddings ollamaClient ollamaModel doc with
         | inr _ => true
         | inl _ => false
         end) documents in
  let not_stored :=
    List.filter
      (fun request =>
         match WeaviateData.Creator_Do weaviateClient request with
         | Some _ => true
         | None => false
         end) (calls trace) in
  (length (calls trace) + length not_embedded = length documents)%nat /\
  (length (logged trace) = length not_embedded + length not_stored)%nat.
Proof.
  cbv zeta. induction documents as [|doc rest IH]; [done|].
  destruct IH as [IH1 IH2]. simpl.
  destruct (Embeddings ollamaClient ollamaModel doc) as [embedding|err] eqn:He.
  - destruct (WeaviateData.Creator_Do weaviateClient _) as [err|] eqn:Hdo;
      rewrite ?calls_cons, ?logged_cons; simpl; rewrite Hdo; simpl;
      split; lia.
  - rewrite ?calls_cons, ?logged_cons. simpl. split; lia.
Qed.

(** X12: indexing a list of documents is indexing its parts one after the
    other; in the Qdrant variant the second part is numbered from the
    length of the first. *)
Theorem indexDocuments_app (ollamaClient : OllamaClient)
    (weaviateClient : WeaviateData.Creator)
    (qdrantClient : QdrantData.UpsertClient)
    (documents1 documents2 : list string) :
  WeaviateData.indexDocuments ollamaClient weaviateClient
    (documents1 ++ documents2)
  = WeaviateData.indexDocuments ollamaClient weaviateClient documents1 ++
    WeaviateData.indexDocuments ollamaClient weaviateClient documents2 /\
  QdrantData.indexDocuments ollamaClient qdrantClient
    (documents1 ++ documents2)
  = QdrantData.indexDocuments ollamaClient qdrantClient documents1 ++
    QdrantData.index_loop ollamaClient qdrantClient (length documents1)
      documents2.
Proof.
  split.
  - induction documents1 as [|doc rest IH]; simpl; [done|].
    destruct (Embeddings ollamaClient ollamaModel doc); simpl;
      [destruct (WeaviateData.Creator_Do weaviateClient _); simpl|];
      by rewrite IH.
  - unfold QdrantData.indexDocuments.
    change (length documents1) with (0 + length documents1)%nat.
    generalize 0%nat as i.
    induction documents1 as [|doc rest IH]; intros i; simpl.
    + by rewrite Nat.add_0_r.
    + rewrite <- Nat.add_succ_comm.
      destruct (Embeddings ollamaClient ollamaModel doc); simpl;
        [destruct (QdrantData.Upsert qdrantClient _); simpl|];
        by rewrite IH.
Qed.

Lemma qdrant_index_loop_calls (ollamaClient : OllamaClient)
    (qdrantClient : QdrantData.UpsertClient) (documents : list string) :
  forall (i : nat) (request : QdrantData.UpsertPoints),
    request ∈ calls (QdrantData.index_loop ollamaClient qdrantClient i documents) ->
    exists (j : nat) (doc : string) (embedding : list float64),
      documents !! j = Some doc /\
      Embeddings ollamaClient ollamaModel doc = inl embedding /\
      request =
        {| QdrantData.CollectionName := "documents";
           QdrantData.Points :=
             [ {| QdrantData.Id := N.of_nat (i + j);
                  QdrantData.Vectors := convertToFloat32 embedding;
                  QdrantData.Payload :=
                    {[ "text" := Qdrant.Value_StringValue doc ]} |} ] |}.
Proof.
  induction documents as [|doc rest IH]; intros i request.
  - intros H. by apply elem_of_nil in H.
  - assert (Hrest : request ∈ calls (QdrantData.index_loop ollamaClient
                                       qdrantClient (S i) rest) ->
                    exists j doc' embedding,
                      (doc :: rest) !! j = Some doc' /\
                      Embeddings ollamaClient ollamaModel doc' = inl embedding /\
                      request =
                        {| QdrantData.CollectionName := "documents";
                           QdrantData.Points :=
                             [ {| QdrantData.Id := N.of_nat (i + j);
                                  QdrantData.Vectors := convertToFloat32 embedding;
                                  QdrantData.Payload :=
                                    {[ "text" := Qdrant.Value_StringValue doc' ]}
                               |} ] |}).
    { intros H. destruct (IH (S i) request H) as (j & doc' & e & Hj & He & ->).
      exists (S j), doc', e. split; [done|]. split; [done|].
      by rewrite <- Nat.add_succ_comm. }
    simpl.
    destruct (Embeddings ollamaClient ollamaModel doc) as [embedding|err] eqn:He.
    + destruct (QdrantData.Upsert qdrantClient _);
        rewrite ?calls_cons;
        (intros [->|H]%elem_of_cons; [|by apply Hrest]);
        exists 0%nat, doc, embedding; rewrite Nat.add_0_r; done.
    + rewrite calls_cons. exact Hrest.
Qed.

Lemma qdrant_point_ids_ge (ollamaClient : OllamaClient)
    (qdrantClient : QdrantData.UpsertClient) (documents : list string) :
  forall (i : nat) (id : N),
    id ∈ QdrantData.point_ids
           (QdrantData.index_loop ollamaClient qdrantClient i documents) ->
    (N.of_nat i <= id)%N.
Proof.
  intros i id. unfold QdrantData.point_ids.
  rewrite list_elem_of_In, in_flat_map.
  intros (request & Hreq%list_elem_of_In & Hid).
  destruct (qdrant_index_loop_calls _ _ _ _ _ Hreq)
    as (j & doc & e & _ & _ & ->).
  simpl in Hid. destruct Hid as [<-|[]]. lia.
Qed.

(** X13: in the Qdrant variant every request carries one point, whose id
    is the position of its document in the list, whose vector is the
    converted embedding and whose payload holds the document as [text];
    so the ids sent are pairwise different, and a document that could not
    be embedded leaves its number unused. *)
Theorem qdrant_indexDocuments_ids (ollamaClient : OllamaClient)
    (qdrantClient : QdrantData.UpsertClient) (documents : list string) :
  let trace := QdrantData.indexDocuments ollamaClient qdrantClient documents in
  (forall request, request ∈ calls trace ->
     exists (j : nat) (doc : string) (embedding : list float64),
       documents !! j = Some doc /\
       Embeddings ollamaClient ollamaModel doc = inl embedding /\
       request =
         {| QdrantData.CollectionName := "documents";
            QdrantData.Points :=
              [ {| QdrantData.Id := N.of_nat j;
                   QdrantData.Vectors := convertToFloat32 embedding;
                   QdrantData.Payload :=
                     {[ "text" := Qdrant.Value_StringValue doc ]} |} ] |}) /\
  NoDup (QdrantData.point_ids trace).
Proof.
  cbv zeta. split.
  - intros request Hreq.
    exact (qdrant_index_loop_calls _ _ _ 0%nat request Hreq).
  - unfold QdrantData.indexDocuments. generalize 0%nat as i.
    induction documents as [|doc rest IH]; intros i; [constructor|].
    assert (Hfresh : N.of_nat i ∉
              QdrantData.point_ids
                (QdrantData.index_loop ollamaClient qdrantClient (S i) rest)).
    { intros Hin. apply qdrant_point_ids_ge in Hin. lia. }
    simpl.
    destruct (Embeddings ollamaClient ollamaModel doc) as [embedding|err].
    + destruct (QdrantData.Upsert qdrantClient _);
        unfold QdrantData.point_ids; rewrite ?calls_cons; simpl;
        (constructor; [exact Hfresh|apply IH]).
    + unfold QdrantData.point_ids. rewrite calls_cons. apply IH.
Qed.

(** ** [processQuery] *)

Lemma string_concat_cons (x : string) (xs : list string) :
  String.concat "" (x :: xs) = x +:+ String.concat "" xs.
Proof.
  destruct xs as [|y ys]; simpl; [by rewrite string_app_nil_r|done].
Qed.

Lemma collect_answer_concat (chunks : list string) :
  collect_answer chunks = String.concat "" chunks.
Proof.
  unfold collect_answer.
  assert (Hacc : forall acc,
            fold_left (fun answer response => answer +:+ response) chunks acc
            = acc +:+ String.concat "" chunks); [|apply (Hacc "")].
  induction chunks as [|chunk rest IH]; intros acc.
  - simpl. by rewrite string_app_nil_r.
  - rewrite string_concat_cons. simpl. rewrite IH.
    by rewrite string_app_assoc.
Qed.

Lemma lines_no_text (documents : list Weaviate.iface) :
  Forall (fun doc => Weaviate.document_text doc = None) documents ->
  omap Weaviate.document_text documents = [].
Proof.
  induction 1 as [|doc rest Hdoc _ IH]; simpl; [done|].
  rewrite Hdoc. exact IH.
Qed.

Section OrchestratorMore.
Context {MultiTargetArgumentBuilder : Type}.
Implicit Types (ollamaClient : OllamaClient)
  (weaviateClient : Weaviate.Client MultiTargetArgumentBuilder)
  (qdrantClient : Qdrant.PointsClient)
  (openaiClient : OpenAI.Client).

(** X14: when all three stages succeed, [processQuery] returns the
    streamed chunks joined in arrival order, and prints the context and
    logs nothing; the prompt it sent is the context, the question and
    the answer cue. *)
Theorem processQuery_answer ollamaClient weaviateClient qdrantClient
    (query : string) (embedding : list float64) (context : string)
    (chunks : list string) :
  Embeddings ollamaClient ollamaModel query = inl embedding ->
  Generate ollamaClient ollamaModel
    (context +:+ nl +:+ "질문: " +:+ query +:+ nl +:+ "답변:")
  = (chunks, None) ->
  (forall result,
     Weaviate.Get_Do weaviateClient Weaviate.className ["text"]
       (WithVector (convertToFloat32 embedding) new_builder) 3 = inl result ->
     Weaviate.assemble_context result = context ->
     Weaviate.processQuery ollamaClient weaviateClient query
     = (String.concat "" chunks, [Stdout ("Context: " +:+ context +:+ nl)])) /\
  (forall searchResp,
     Qdrant.Points_Search qdrantClient Qdrant.collectionName
       (convertToFloat32 embedding) 3 true = inl searchResp ->
     Qdrant.assemble_context searchResp = context ->
     Qdrant.processQuery ollamaClient qdrantClient query
     = (String.concat "" chunks,
        [Stdout ("createCollection " +:+ context +:+ nl)])).
Proof.
  intros Hembed Hgen. split.
  - intros result Hsearch Hctx. unfold Weaviate.processQuery.
    rewrite Hembed, Hsearch, Hctx. unfold prompt_of. rewrite Hgen.
    by rewrite collect_answer_concat.
  - intros searchResp Hsearch Hctx. unfold Qdrant.processQuery.
    rewrite Hembed, Hsearch, Hctx. unfold prompt_of. rewrite Hgen.
    by rewrite collect_answer_concat.
Qed.

(** X15: a Weaviate response without usable hits gives the bare header as
    context: when [Data] has no object under [Get], when that object has
    no list under the class name, and when no hit of the list has a text.
    [processQuery] then still asks the generator, with the header alone
    as context. *)
Theorem assemble_context_without_hits (result : Weaviate.GraphQLResponse) :
  ((forall data, Weaviate.Data result !! "Get" <> Some (Weaviate.IMap data)) ->
   Weaviate.assemble_context result = context_header) /\
  (forall data,
     Weaviate.Data result !! "Get" = Some (Weaviate.IMap data) ->
     (forall documents,
        data !! Weaviate.className <> Some (Weaviate.ISlice documents)) ->
     Weaviate.assemble_context result = context_header) /\
  (forall data documents,
     Weaviate.Data result !! "Get" = Some (Weaviate.IMap data) ->
     data !! Weaviate.className = Some (Weaviate.ISlice documents) ->
     Forall (fun doc => Weaviate.document_text doc = None) documents ->
     Weaviate.assemble_context result = context_header) /\
  (forall ollamaClient weaviateClient query embedding,
     Embeddings ollamaClient ollamaModel query = inl embedding ->
     Weaviate.Get_Do weaviateClient Weaviate.className ["text"]
       (WithVector (convertToFloat32 embedding) new_builder) 3 = inl result ->
     Weaviate.assemble_context result = context_header ->
     (Weaviate.processQuery ollamaClient weaviateClient query).1
     = after_retrieval ollamaClient context_header query).
Proof.
  split; [|split; [|split]].
  - intros Hget. unfold Weaviate.assemble_context.
    destruct (Weaviate.Data result !! "Get") as [[| | | | |data]|];
      try reflexivity.
    by destruct (Hget data).
  - intros data Hget Hclass. unfold Weaviate.assemble_context. rewrite Hget.
    destruct (data !! Weaviate.className) as [[| | | |documents|]|];
      try reflexivity.
    by destruct (Hclass documents).
  - intros data documents Hget Hclass Hnone.
    unfold Weaviate.assemble_context. rewrite Hget, Hclass.
    rewrite weaviate_context_loop_lines, (lines_no_text _ Hnone). simpl.
    apply string_app_nil_r.
  - intros ollamaClient weaviateClient query embedding Hembed Hsearch Hctx.
    rewrite (weaviate_processQuery_retrieved _ _ _ _ _ Hembed Hsearch).
    by rewrite Hctx.
Qed.

(** X16: the two stores give the same context, hence the same prompt, for
    the same texts: a Weaviate response whose hits carry [texts] and a
    Qdrant response whose points carry [texts] assemble alike. *)
Theorem assemble_context_same_for_both_stores (texts : list string)
    (scores : list float32) :
  length scores = length texts ->
  Weaviate.assemble_context
    {| Weaviate.Data :=
         {[ "Get" :=
              Weaviate.IMap
                {[ Weaviate.className :=
                     Weaviate.ISlice
                       (map (fun text =>
                               Weaviate.IMap
                                 {[ "text" := Weaviate.IString text ]})
                            texts) ]} ]} |}
  = Qdrant.assemble_context
      (zip_with (fun score text =>
                   {| Qdrant.Score := score;
                      Qdrant.Payload :=
                        {[ "text" := Qdrant.Value_StringValue text ]} |})
                scores texts).
Proof.
  intros Hlen. unfold Weaviate.assemble_context, Qdrant.assemble_context.
  simpl. rewrite !lookup_singleton_eq.
  rewrite weaviate_context_loop_lines, qdrant_context_loop_lines.
  f_equal. f_equal. revert scores Hlen.
  induction texts as [|text rest IH]; intros [|score scores] Hlen;
    simpl in *; try done.
  rewrite !lookup_singleton_eq. simpl. f_equal. apply IH. lia.
Qed.


(** X18: when it does not panic, the OpenAI variant returns one of the
    three apologies of the other variants, or else the content of the
    first choice; further embeddings and further choices are not looked
    at. *)
Theorem openai_processQuery_returns openaiClient weaviateClient
    (query answer : string) :
  (OpenAI.processQuery openaiClient weaviateClient query).1 = Returns answer ->
  answer = embedding_apology \/ answer = retrieval_apology \/
  answer = generation_apology \/
  exists embedding others result choices,
    OpenAI.CreateEmbeddings openaiClient OpenAI.AdaEmbeddingV2 [query]
    = inl (embedding :: others) /\
    Weaviate.Get_Do weaviateClient Weaviate.className ["text"]
      (WithVector embedding new_builder) 3 = inl result /\
    OpenAI.CreateChatCompletion openaiClient OpenAI.GPT3Dot5Turbo
      [OpenAI.system_message;
       {| OpenAI.Role := OpenAI.ChatMessageRoleUser;
          OpenAI.Content :=
            Weaviate.assemble_context result +:+ nl +:+ "질문: " +:+ query |}]
    = inl (answer :: choices).
Proof.
  unfold OpenAI.processQuery.
  destruct (OpenAI.CreateEmbeddings openaiClient OpenAI.AdaEmbeddingV2 [query])
    as [[|embedding others]|err] eqn:Hembed; simpl.
  - discriminate.
  - destruct (Weaviate.Get_Do weaviateClient Weaviate.className ["text"]
                (WithVector embedding new_builder) 3)
      as [result|err] eqn:Hsearch; simpl.
    + destruct (OpenAI.CreateChatCompletion openaiClient OpenAI.GPT3Dot5Turbo _)
        as [[|content choices]|err] eqn:Hchat; simpl.
      * discriminate.
      * intros [= <-]. right. right. right.
        exists embedding, others, result, choices. by rewrite Hsearch.
      * intros [= <-]. by right; right; left.
    + intros [= <-]. by right; left.
  - intros [= <-]. by left.
Qed.

End OrchestratorMore.

(** *** The further properties with concrete collaborators *)

Lemma processQuery_answer_witness :
  let context := Qdrant.assemble_context Sample.qdrant_points in
  Embeddings Sample.ollama_ok ollamaModel "q" = inl [S754_finite false 3 0] /\
  Generate Sample.ollama_ok ollamaModel
    (context +:+ nl +:+ "질문: " +:+ "q" +:+ nl +:+ "답변:")
  = (["an"; "swer"], None) /\
  Qdrant.processQuery Sample.ollama_ok Sample.qdrant_ok "q"
  = (String.concat "" ["an"; "swer"],
     [Stdout ("createCollection " +:+ context +:+ nl)]).
Proof.
  intros context.
  assert (Hembed : Embeddings Sample.ollama_ok ollamaModel "q"
                   = inl [S754_finite false 3 0]) by reflexivity.
  assert (Hgen : Generate Sample.ollama_ok ollamaModel
                   (context +:+ nl +:+ "질문: " +:+ "q" +:+ nl +:+ "답변:")
                 = (["an"; "swer"], None)) by reflexivity.
  split; [exact Hembed|]. split; [exact Hgen|].
  exact (proj2 (processQuery_answer Sample.ollama_ok Sample.weaviate_ok
                  Sample.qdrant_ok "q" [S754_finite false 3 0] context
                  ["an"; "swer"] Hembed Hgen)
           Sample.qdrant_points eq_refl eq_refl).
Defined.

Lemma assemble_context_without_hits_witness :
  let result := {| Weaviate.Data := ∅ |} in
  (forall data, Weaviate.Data result !! "Get" <> Some (Weaviate.IMap data)) /\
  Weaviate.assemble_context result = context_header.
Proof.
  intros result.
  assert (Hget : forall data,
            Weaviate.Data result !! "Get" <> Some (Weaviate.IMap data))
    by (intros data H; discriminate H).
  split; [exact Hget|].
  exact (proj1 (@assemble_context_without_hits Empty_set result) Hget).
Defined.

Lemma assemble_context_same_for_both_stores_witness :
  length [Sample.one; Sample.one] = length ["first"; "second"] /\
  Qdrant.assemble_context
    (zip_with (fun score text =>
                 {| Qdrant.Score := score;
                    Qdrant.Payload :=
                      {[ "text" := Qdrant.Value_StringValue text ]} |})
              [Sample.one; Sample.one] ["first"; "second"])
  = context_header +:+ lines ["first"; "second"].
Proof.
  assert (Hlen : length [Sample.one; Sample.one] = length ["first"; "second"])
    by reflexivity.
  split; [exact Hlen|].
  rewrite <- (assemble_context_same_for_both_stores
                ["first"; "second"] [Sample.one; Sample.one] Hlen).
  vm_compute. reflexivity.
Defined.


Lemma openai_processQuery_returns_witness :
  (OpenAI.processQuery SampleData.openai_ok Sample.weaviate_ok "q").1
  = Returns "one" /\
  ("one" = embedding_apology \/ "one" = retrieval_apology \/
   "one" = generation_apology \/
   exists embedding others result choices,
     OpenAI.CreateEmbeddings SampleData.openai_ok OpenAI.AdaEmbeddingV2 ["q"]
     = inl (embedding :: others) /\
     Weaviate.Get_Do Sample.weaviate_ok Weaviate.className ["text"]
       (WithVector embedding new_builder) 3 = inl result /\
     OpenAI.CreateChatCompletion SampleData.openai_ok OpenAI.GPT3Dot5Turbo
       [OpenAI.system_message;
        {| OpenAI.Role := OpenAI.ChatMessageRoleUser;
           OpenAI.Content :=
             Weaviate.assemble_context result +:+ nl +:+ "질문: " +:+ "q" |}]
     = inl ("one" :: choices)).
Proof.
  assert (Hret : (OpenAI.processQuery SampleData.openai_ok
                    Sample.weaviate_ok "q").1 = Returns "one")
    by reflexivity.
  split; [exact Hret|].
  exact (openai_processQuery_returns SampleData.openai_ok Sample.weaviate_ok
           "q" "one" Hret).
Defined.

(** * [processQuery] and the panics of the query builder *)

Section ProcessQueryOutcome.
Context {MultiTargetArgumentBuilder : Type}.
Variable targets_build : MultiTargetArgumentBuilder -> string.
Variable fmt_float32 : float32 -> string.
Variable json_float32 : float32 -> string.
Variable json_Marshal_strings : list string -> string.
Variable map_range :
  gmap string (list (list float32)) -> list (string * list (list float32)).

Implicit Types (ollamaClient : OllamaClient)
  (weaviateClient : Weaviate.Client MultiTargetArgumentBuilder)
  (qdrantClient : Qdrant.PointsClient).

Local Abbreviation Do' :=
  (Weaviate.Do targets_build fmt_float32 json_float32 json_Marshal_strings
     map_range).
Local Abbreviation processQuery_outcome' :=
  (Weaviate.processQuery_outcome targets_build fmt_float32 json_float32
     json_Marshal_strings map_range).

Lemma Do_returns weaviateClient (className : string) (fields : list string)
    (v : list float32) (limit : nat) :
  existsb is_nan_or_inf v = false ->
  Do' weaviateClient className fields (WithVector v new_builder) limit
  = Returns (Weaviate.Get_Do weaviateClient className fields
               (WithVector v new_builder) limit).
Proof.
  intros Hfinite. unfold Weaviate.Do, build.
  rewrite build_clause_parts. simpl. rewrite map_size_empty. simpl.
  destruct v as [|f v]; [reflexivity|].
  by rewrite (json_Marshal_vector_ok json_float32 _ Hfinite).
Qed.

Lemma Do_panics weaviateClient (className : string) (fields : list string)
    (v : list float32) (limit : nat) :
  existsb is_nan_or_inf v = true ->
  exists f, f ∈ v /\ is_nan_or_inf f = true /\
    Do' weaviateClient className fields (WithVector v new_builder) limit
    = Panics (PanicError
        ("failed to unmarshal nearVector search vector: " +:+
         unsupported_value f)).
Proof.
  intros Hbad.
  destruct (build_panics_primary targets_build fmt_float32 json_float32
              json_Marshal_strings map_range (WithVector v new_builder))
    as (f & Hin & Hf & Hp); [apply map_size_empty|exact Hbad|].
  exists f. split; [exact Hin|]. split; [exact Hf|].
  unfold Weaviate.Do. by rewrite Hp.
Qed.

(** Whenever [Do] returns, the function is [Weaviate.processQuery]. *)
Lemma processQuery_outcome_returns ollamaClient weaviateClient
    (query : string) :
  (forall embedding,
     Embeddings ollamaClient ollamaModel query = inl embedding ->
     existsb is_nan_or_inf (convertToFloat32 embedding) = false) ->
  processQuery_outcome' ollamaClient weaviateClient query
  = (Returns (Weaviate.processQuery ollamaClient weaviateClient query).1,
     (Weaviate.processQuery ollamaClient weaviateClient query).2).
Proof.
  intros Hfinite. unfold Weaviate.processQuery_outcome, Weaviate.processQuery.
  destruct (Embeddings ollamaClient ollamaModel query) as [embedding|err];
    [|reflexivity].
  cbv zeta. rewrite (Do_returns _ _ _ _ _ (Hfinite embedding eq_refl)).
  destruct (Weaviate.Get_Do weaviateClient _ _ _ _) as [result|err];
    [|reflexivity].
  by destruct (Generate ollamaClient ollamaModel _) as [chunks [err|]].
Qed.

(** C5, as the code has it: when a stage reports its failure as an error
    value, [processQuery] returns the apology of that stage and logs the
    cause, in both variants, and the three apologies are pairwise
    distinct.  The Weaviate variant has no [recover]: it panics, instead
    of returning, exactly when the embedding call succeeded and the
    converted embedding holds a NaN or an infinity, the query builder
    panicking inside [Do]. *)
Theorem processQuery_reported_failures ollamaClient weaviateClient
    qdrantClient (query : string) :
  (embedding_apology <> retrieval_apology /\
   embedding_apology <> generation_apology /\
   retrieval_apology <> generation_apology) /\
  (forall err,
     Embeddings ollamaClient ollamaModel query = inr err ->
     Weaviate.processQuery_outcome targets_build fmt_float32 json_float32
       json_Marshal_strings map_range ollamaClient weaviateClient query
     = (Returns embedding_apology, [Log ("쿼리 임베딩 실패: " +:+ err)]) /\
     Qdrant.processQuery ollamaClient qdrantClient query
     = (embedding_apology, [Log ("쿼리 임베딩 실패: " +:+ err)])) /\
  (forall embedding err,
     Embeddings ollamaClient ollamaModel query = inl embedding ->
     (Do' weaviateClient Weaviate.className ["text"]
        (WithVector (convertToFloat32 embedding) new_builder) 3
      = Returns (inr err) ->
      processQuery_outcome' ollamaClient weaviateClient query
      = (Returns retrieval_apology,
         [Log ("유사 문서 검색 실패: " +:+ err)])) /\
     (Qdrant.Points_Search qdrantClient Qdrant.collectionName
        (convertToFloat32 embedding) 3 true = inr err ->
      Qdrant.processQuery ollamaClient qdrantClient query
      = (retrieval_apology, [Log ("유사 문서 검색 실패: " +:+ err)]))) /\
  (forall embedding context chunks err,
     Embeddings ollamaClient ollamaModel query = inl embedding ->
     Generate ollamaClient ollamaModel (prompt_of context query)
     = (chunks, Some err) ->
     (forall result,
        Do' weaviateClient Weaviate.className ["text"]
          (WithVector (convertToFloat32 embedding) new_builder) 3
        = Returns (inl result) ->
        Weaviate.assemble_context result = context ->
        processQuery_outcome' ollamaClient weaviateClient query
        = (Returns generation_apology,
           [Stdout ("Context: " +:+ context +:+ nl);
            Log ("LLM 응답 생성 실패: " +:+ err)])) /\
     (forall searchResp,
        Qdrant.Points_Search qdrantClient Qdrant.collectionName
          (convertToFloat32 embedding) 3 true = inl searchResp ->
        Qdrant.assemble_context searchResp = context ->
        Qdrant.processQuery ollamaClient qdrantClient query
        = (generation_apology,
           [Stdout ("createCollection " +:+ context +:+ nl);
            Log ("LLM 응답 생성 실패: " +:+ err)]))) /\
  ((exists p,
      (processQuery_outcome' ollamaClient weaviateClient query).1 = Panics p)
   <->
   exists embedding,
     Embeddings ollamaClient ollamaModel query = inl embedding /\
     existsb is_nan_or_inf (convertToFloat32 embedding) = true).
Proof.
  split; [exact apologies_distinct|]. split; [|split; [|split]].
  - intros err Hembed.
    unfold Weaviate.processQuery_outcome, Qdrant.processQuery.
    by rewrite Hembed.
  - intros embedding err Hembed. split.
    + intros Hdo. unfold Weaviate.processQuery_outcome.
      rewrite Hembed. cbv zeta. by rewrite Hdo.
    + intros Hsearch. unfold Qdrant.processQuery.
      by rewrite Hembed, Hsearch.
  - intros embedding context chunks err Hembed Hgen. split.
    + intros result Hdo Hctx. unfold Weaviate.processQuery_outcome.
      rewrite Hembed. cbv zeta. by rewrite Hdo, Hctx, Hgen.
    + intros searchResp Hsearch Hctx. unfold Qdrant.processQuery.
      by rewrite Hembed, Hsearch, Hctx, Hgen.
  - split.
    + intros [p Hp].
      destruct (Embeddings ollamaClient ollamaModel query)
        as [embedding|err] eqn:Hembed.
      * exists embedding. split; [reflexivity|].
        destruct (existsb is_nan_or_inf (convertToFloat32 embedding))
          eqn:Hbad; [reflexivity|].
        rewrite processQuery_outcome_returns in Hp; [discriminate Hp|].
        intros e He. rewrite Hembed in He. by injection He as <-.
      * unfold Weaviate.processQuery_outcome in Hp. rewrite Hembed in Hp.
        discriminate Hp.
    + intros (embedding & Hembed & Hbad).
      destruct (Do_panics weaviateClient Weaviate.className ["text"]
                  (convertToFloat32 embedding) 3 Hbad)
        as (f & _ & _ & Hdo).
      eexists. unfold Weaviate.processQuery_outcome.
      rewrite Hembed. cbv zeta. by rewrite Hdo.
Qed.

End ProcessQueryOutcome.

(** C5 fails as stated: the embedding call succeeds with the finite value
    2^128, which [convertToFloat32] turns into an infinity; the query
    builder then panics inside [Do], and so does [processQuery] of the
    Weaviate variant, no stage having reported an error. *)
Lemma processQuery_raises_counterexample :
  Embeddings Sample.ollama_overflow ollamaModel "q"
  = inl [S754_finite false 4503599627370496 76] /\
  convertToFloat32 [S754_finite false 4503599627370496 76]
  = [S754_infinity false] /\
  Sample.processQuery_outcome_sample Sample.ollama_overflow
    Sample.weaviate_ok "q"
  = (Panics (PanicError
       "failed to unmarshal nearVector search vector: json: unsupported value: +Inf"),
     []).
Proof. repeat split; vm_compute; reflexivity. Qed.

Lemma processQuery_reported_failures_witness :
  Embeddings Sample.ollama_no_embedding ollamaModel "q"
  = inr "connection refused" /\
  Sample.processQuery_outcome_sample Sample.ollama_no_embedding
    Sample.weaviate_ok "q"
  = (Returns embedding_apology,
     [Log ("쿼리 임베딩 실패: " +:+ "connection refused")]) /\
  Embeddings Sample.ollama_ok ollamaModel "q" = inl [S754_finite false 3 0] /\
  Qdrant.Points_Search Sample.qdrant_down Qdrant.collectionName
    (convertToFloat32 [S754_finite false 3 0]) 3 true = inr "timeout" /\
  Qdrant.processQuery Sample.ollama_ok Sample.qdrant_down "q"
  = (retrieval_apology, [Log ("유사 문서 검색 실패: " +:+ "timeout")]).
Proof.
  assert (H1 : Embeddings Sample.ollama_no_embedding ollamaModel "q"
               = inr "connection refused") by reflexivity.
  assert (H2 : Embeddings Sample.ollama_ok ollamaModel "q"
               = inl [S754_finite false 3 0]) by reflexivity.
  assert (H3 : Qdrant.Points_Search Sample.qdrant_down Qdrant.collectionName
                 (convertToFloat32 [S754_finite false 3 0]) 3 true
               = inr "timeout") by reflexivity.
  split; [exact H1|]. split; [|split; [exact H2|split; [exact H3|]]].
  - exact (proj1 (proj1 (proj2 (processQuery_reported_failures
             Sample.no_targets Sample.show_float Sample.show_float
             Sample.show_strings map_to_list
             Sample.ollama_no_embedding Sample.weaviate_ok Sample.qdrant_ok
             "q")) "connection refused" H1)).
  - exact (proj2 (proj1 (proj2 (proj2 (processQuery_reported_failures
             Sample.no_targets Sample.show_float Sample.show_float
             Sample.show_strings map_to_list
             Sample.ollama_ok Sample.weaviate_down Sample.qdrant_down "q")))
             [S754_finite false 3 0] "timeout" H2) H3).
Defined.
